(** * The Niri window-manager backend of cairo-dock

    A shallow embedding of [src/implementations/cairo-dock-niri-toplevel.c]
    and the properties of it that the specification states.

    The C file is a Wayland client: it owns eight file-scope statics, reads
    and writes window actors that live on the heap, sends requests to the
    compositor, spawns [niri msg action ...] commands and registers one
    backend descriptor with the dock.  The embedding keeps those apart:

    - [world] is the mutable memory the file can reach (its statics, the
      heap of window actors, and what libwayland remembers per handle);
    - [effect] is one outbound action (a protocol request, a spawned
      command, a log line, a registration);
    - a C function of the file is a Rocq function into the monad [M]: from
      a [world] it yields its return value, the next [world] and the
      effects it emitted, oldest first, or [None] when the C code would
      dereference a null or dangling pointer. *)

From Stdlib Require Import ZArith NArith String List Bool Lia DecimalString.
From Stdlib Require DecimalZ DecimalPos.
From stdpp Require Import base option gmap strings list.

Local Open Scope Z_scope.

(** ** Pointers

    Every foreign object (a proxy, a seat, a surface, a widget) is known to
    the C code by its address only.  An address is a [positive]; a pointer
    that may be [NULL] is an [option]. *)

Abbreviation wfthandle := positive (only parsing).
Abbreviation actor_ptr := positive (only parsing).
Abbreviation wl_proxy := positive (only parsing).
Abbreviation wl_registry := positive (only parsing).
Abbreviation wl_seat := positive (only parsing).
Abbreviation wl_output := positive (only parsing).
Abbreviation wl_surface := positive (only parsing).
Abbreviation GdkDisplay := positive (only parsing).
Abbreviation GdkSeat := positive (only parsing).
Abbreviation GdkWindow := positive (only parsing).
Abbreviation GldiContainer := positive (only parsing).

(** [gboolean] with [TRUE] and [FALSE]. *)
Abbreviation gboolean := bool (only parsing).
Abbreviation TRUE := true (only parsing).
Abbreviation FALSE := false (only parsing).

(** ** C [int]

    [int] is 32 bits wide in every ABI cairo-dock builds for.  Addition is
    written with its two's-complement wrap-around. *)

Definition INT_MIN : Z := - 2 ^ 31.
Definition INT_MAX : Z := 2 ^ 31 - 1.

Definition wrap_int (z : Z) : Z := (z + 2 ^ 31) mod 2 ^ 32 - 2 ^ 31.

Definition int_add (a b : Z) : Z := wrap_int (a + b).

(** [g_strdup_printf("%d", z)]: the decimal digits of [z], with a leading
    minus sign when [z] is negative. *)
Definition printf_d (z : Z) : string := NilZero.string_of_int (Z.to_int z).

(** ** Data *)

(** [struct wl_interface], as far as the file reads it. *)
Record wl_interface := {
  name : string;
  version : N
}.

(** [actor->windowGeometry], a [GtkAllocation]. *)
Record GtkAllocation := {
  geo_x : Z;
  geo_y : Z;
  geo_width : Z;
  geo_height : Z
}.

(** Modelled from the spec: the declarations of [GldiWindowActor] and
    [GldiWaylandWindowActor] are in headers that are not part of the
    sources at hand.  [handle], [parent], [iNumDesktop] and
    [windowGeometry] are the fields this file reads and writes; the four
    state booleans are the ones section 3 of the specification gives a
    Window Shadow. *)
Record GldiWaylandWindowActor := {
  iNumDesktop : Z;
  windowGeometry : GtkAllocation;
  handle : option wfthandle;
  parent : option wfthandle;
  activated : gboolean;
  maximized : gboolean;
  minimized : gboolean;
  fullscreen : gboolean
}.

(** The functions of this file and of the generic Wayland window-manager
    helper whose addresses end up in the backend descriptor. *)
Inductive backend_fn :=
| Fn_gldi_wayland_wm_get_active_window
| Fn_gldi_wayland_wm_pick_window
| Fn_move_to_nth_desktop
| Fn_show
| Fn_close
| Fn_minimize
| Fn_maximize
| Fn_set_fullscreen
| Fn_set_thumbnail_area
| Fn_get_transient_for
| Fn_can_minimize_maximize_close
| Fn_get_supported_actions.

(** [GldiWindowManagerBackend], restricted to the members the file assigns;
    all its other members keep the zero of the [{0}] initialiser. *)
Record GldiWindowManagerBackend := {
  wmb_get_active_window : option backend_fn;
  wmb_move_to_nth_desktop : option backend_fn;
  wmb_show : option backend_fn;
  wmb_close : option backend_fn;
  wmb_minimize : option backend_fn;
  wmb_maximize : option backend_fn;
  wmb_set_fullscreen : option backend_fn;
  wmb_set_thumbnail_area : option backend_fn;
  wmb_get_transient_for : option backend_fn;
  wmb_can_minimize_maximize_close : option backend_fn;
  wmb_pick_window : option backend_fn;
  wmb_get_supported_actions : option backend_fn;
  wmb_flags : Z;
  wmb_name : option string
}.

(** ** Effects *)

Inductive effect :=
(* requests of zwlr_foreign_toplevel_handle_v1, with the proxy they are sent on *)
| Req_activate (h : option wfthandle) (seat : option wl_seat)
| Req_close (h : option wfthandle)
| Req_set_minimized (h : option wfthandle)
| Req_set_maximized (h : option wfthandle)
| Req_unset_maximized (h : option wfthandle)
| Req_set_fullscreen (h : option wfthandle) (output : option wl_output)
| Req_unset_fullscreen (h : option wfthandle)
| Req_set_rectangle (h : option wfthandle) (surface : wl_surface) (x y w h' : Z)
(* wl_registry_bind *)
| Req_bind (registry : wl_registry) (id : N) (iface : wl_interface) (ver : N)
(* g_spawn_command_line_async *)
| E_spawn (command : string)
(* cd_warning, cd_message *)
| E_warning (text : string)
| E_message (text : string)
(* zwlr_foreign_toplevel_manager_v1_add_listener with toplevel_manager_listener *)
| E_manager_add_listener (manager : wl_proxy)
(* gldi_ext_workspaces_register_manager *)
| E_ext_workspaces_register_manager (manager : wl_proxy)
(* gldi_windows_manager_register_backend *)
| E_register_backend (wmb : GldiWindowManagerBackend)
(* gldi_wayland_wm_init (_destroy_handle) *)
| E_wayland_wm_init
(* calls into the generic Wayland window-manager helper, with their arguments *)
| E_wm_new_toplevel (handle : wfthandle)
| E_wm_activated (wactor : actor_ptr) (activated notify : gboolean)
| E_wm_maximized_changed (wactor : actor_ptr) (maximized notify : gboolean)
| E_wm_minimized_changed (wactor : actor_ptr) (minimized notify : gboolean)
| E_wm_fullscreen_changed (wactor : actor_ptr) (fullscreen notify : gboolean).

(** How [g_spawn_command_line_async] ended: it returned [TRUE], or it
    returned [FALSE] and left a [GError] (or none) behind. *)
Inductive spawn_result :=
| spawn_ok
| spawn_failed (error_message : option string).

(** ** Memory *)

(** The file-scope statics. *)
Record statics := {
  s_ptoplevel_manager : option wl_proxy;
  s_pworkspace_manager : option wl_proxy;
  toplevel_id : N;
  toplevel_ver : N;
  workspace_id : N;
  workspace_ver : N;
  toplevel_found : gboolean;
  workspace_found : gboolean
}.

(** Their initialisers. *)
Definition initial_statics : statics := {|
  s_ptoplevel_manager := None;
  s_pworkspace_manager := None;
  toplevel_id := 0;
  toplevel_ver := 0;
  workspace_id := 0;
  workspace_ver := 0;
  toplevel_found := FALSE;
  workspace_found := FALSE
|}.

Record world := {
  globals : statics;
  (* the window actors allocated so far, by address *)
  actors : gmap positive GldiWaylandWindowActor;
  (* zwlr_foreign_toplevel_handle_v1_set_user_data: handle -> actor *)
  user_data : gmap positive positive;
  (* zwlr_foreign_toplevel_handle_v1_add_listener with
     toplevel_handle_listener: handle -> the [data] its callbacks receive *)
  listeners : gmap positive positive
}.

Definition set_globals (f : statics → statics) (w : world) : world :=
  {| globals := f (globals w); actors := actors w;
     user_data := user_data w; listeners := listeners w |}.

Definition set_actors
    (f : gmap positive GldiWaylandWindowActor → gmap positive GldiWaylandWindowActor)
    (w : world) : world :=
  {| globals := globals w; actors := f (actors w);
     user_data := user_data w; listeners := listeners w |}.

Definition set_user_data (f : gmap positive positive → gmap positive positive)
    (w : world) : world :=
  {| globals := globals w; actors := actors w;
     user_data := f (user_data w); listeners := listeners w |}.

Definition set_listeners (f : gmap positive positive → gmap positive positive)
    (w : world) : world :=
  {| globals := globals w; actors := actors w;
     user_data := user_data w; listeners := f (listeners w) |}.

(** Assignments to one member of an actor. *)

Definition set_iNumDesktop (v : Z) (a : GldiWaylandWindowActor) : GldiWaylandWindowActor :=
  {| iNumDesktop := v; windowGeometry := windowGeometry a;
     handle := handle a; parent := parent a;
     activated := activated a; maximized := maximized a;
     minimized := minimized a; fullscreen := fullscreen a |}.

Definition set_windowGeometry (f : GtkAllocation → GtkAllocation)
    (a : GldiWaylandWindowActor) : GldiWaylandWindowActor :=
  {| iNumDesktop := iNumDesktop a; windowGeometry := f (windowGeometry a);
     handle := handle a; parent := parent a;
     activated := activated a; maximized := maximized a;
     minimized := minimized a; fullscreen := fullscreen a |}.

Definition set_geo_x (v : Z) (g : GtkAllocation) : GtkAllocation :=
  {| geo_x := v; geo_y := geo_y g; geo_width := geo_width g; geo_height := geo_height g |}.

Definition set_geo_y (v : Z) (g : GtkAllocation) : GtkAllocation :=
  {| geo_x := geo_x g; geo_y := v; geo_width := geo_width g; geo_height := geo_height g |}.

Definition set_geo_width (v : Z) (g : GtkAllocation) : GtkAllocation :=
  {| geo_x := geo_x g; geo_y := geo_y g; geo_width := v; geo_height := geo_height g |}.

Definition set_geo_height (v : Z) (g : GtkAllocation) : GtkAllocation :=
  {| geo_x := geo_x g; geo_y := geo_y g; geo_width := geo_width g; geo_height := v |}.

Definition set_parent (v : option wfthandle) (a : GldiWaylandWindowActor)
    : GldiWaylandWindowActor :=
  {| iNumDesktop := iNumDesktop a; windowGeometry := windowGeometry a;
     handle := handle a; parent := v;
     activated := activated a; maximized := maximized a;
     minimized := minimized a; fullscreen := fullscreen a |}.

Definition set_activated (v : gboolean) (a : GldiWaylandWindowActor)
    : GldiWaylandWindowActor :=
  {| iNumDesktop := iNumDesktop a; windowGeometry := windowGeometry a;
     handle := handle a; parent := parent a;
     activated := v; maximized := maximized a;
     minimized := minimized a; fullscreen := fullscreen a |}.

Definition set_maximized (v : gboolean) (a : GldiWaylandWindowActor)
    : GldiWaylandWindowActor :=
  {| iNumDesktop := iNumDesktop a; windowGeometry := windowGeometry a;
     handle := handle a; parent := parent a;
     activated := activated a; maximized := v;
     minimized := minimized a; fullscreen := fullscreen a |}.

Definition set_minimized (v : gboolean) (a : GldiWaylandWindowActor)
    : GldiWaylandWindowActor :=
  {| iNumDesktop := iNumDesktop a; windowGeometry := windowGeometry a;
     handle := handle a; parent := parent a;
     activated := activated a; maximized := maximized a;
     minimized := v; fullscreen := fullscreen a |}.

Definition set_fullscreen (v : gboolean) (a : GldiWaylandWindowActor)
    : GldiWaylandWindowActor :=
  {| iNumDesktop := iNumDesktop a; windowGeometry := windowGeometry a;
     handle := handle a; parent := parent a;
     activated := activated a; maximized := maximized a;
     minimized := minimized a; fullscreen := v |}.

(** Assignments to one static. *)

Definition set_s_ptoplevel_manager (v : option wl_proxy) (g : statics) : statics :=
  {| s_ptoplevel_manager := v; s_pworkspace_manager := s_pworkspace_manager g;
     toplevel_id := toplevel_id g; toplevel_ver := toplevel_ver g;
     workspace_id := workspace_id g; workspace_ver := workspace_ver g;
     toplevel_found := toplevel_found g; workspace_found := workspace_found g |}.

Definition set_s_pworkspace_manager (v : option wl_proxy) (g : statics) : statics :=
  {| s_ptoplevel_manager := s_ptoplevel_manager g; s_pworkspace_manager := v;
     toplevel_id := toplevel_id g; toplevel_ver := toplevel_ver g;
     workspace_id := workspace_id g; workspace_ver := workspace_ver g;
     toplevel_found := toplevel_found g; workspace_found := workspace_found g |}.

Definition set_toplevel_id (v : N) (g : statics) : statics :=
  {| s_ptoplevel_manager := s_ptoplevel_manager g;
     s_pworkspace_manager := s_pworkspace_manager g;
     toplevel_id := v; toplevel_ver := toplevel_ver g;
     workspace_id := workspace_id g; workspace_ver := workspace_ver g;
     toplevel_found := toplevel_found g; workspace_found := workspace_found g |}.

Definition set_toplevel_ver (v : N) (g : statics) : statics :=
  {| s_ptoplevel_manager := s_ptoplevel_manager g;
     s_pworkspace_manager := s_pworkspace_manager g;
     toplevel_id := toplevel_id g; toplevel_ver := v;
     workspace_id := workspace_id g; workspace_ver := workspace_ver g;
     toplevel_found := toplevel_found g; workspace_found := workspace_found g |}.

Definition set_workspace_id (v : N) (g : statics) : statics :=
  {| s_ptoplevel_manager := s_ptoplevel_manager g;
     s_pworkspace_manager := s_pworkspace_manager g;
     toplevel_id := toplevel_id g; toplevel_ver := toplevel_ver g;
     workspace_id := v; workspace_ver := workspace_ver g;
     toplevel_found := toplevel_found g; workspace_found := workspace_found g |}.

Definition set_workspace_ver (v : N) (g : statics) : statics :=
  {| s_ptoplevel_manager := s_ptoplevel_manager g;
     s_pworkspace_manager := s_pworkspace_manager g;
     toplevel_id := toplevel_id g; toplevel_ver := toplevel_ver g;
     workspace_id := workspace_id g; workspace_ver := v;
     toplevel_found := toplevel_found g; workspace_found := workspace_found g |}.

Definition set_toplevel_found (v : gboolean) (g : statics) : statics :=
  {| s_ptoplevel_manager := s_ptoplevel_manager g;
     s_pworkspace_manager := s_pworkspace_manager g;
     toplevel_id := toplevel_id g; toplevel_ver := toplevel_ver g;
     workspace_id := workspace_id g; workspace_ver := workspace_ver g;
     toplevel_found := v; workspace_found := workspace_found g |}.

Definition set_workspace_found (v : gboolean) (g : statics) : statics :=
  {| s_ptoplevel_manager := s_ptoplevel_manager g;
     s_pworkspace_manager := s_pworkspace_manager g;
     toplevel_id := toplevel_id g; toplevel_ver := toplevel_ver g;
     workspace_id := workspace_id g; workspace_ver := workspace_ver g;
     toplevel_found := toplevel_found g; workspace_found := v |}.

(** ** The monad of the file's functions *)

Definition M (A : Type) : Type := world → option (A * world * list effect).

#[global] Instance M_ret : MRet M := λ A a w, Some (a, w, []).

#[global] Instance M_bind : MBind M := λ A B f m w,
  match m w with
  | Some (a, w1, out1) =>
      match f a w1 with
      | Some (b, w2, out2) => Some (b, w2, out1 ++ out2)
      | None => None
      end
  | None => None
  end.

Definition emit (e : effect) : M unit := λ w, Some (tt, w, [e]).

(** A dereference of a pointer that points nowhere. *)
Definition undefined {A : Type} : M A := λ _, None.

Definition get_world : M world := λ w, Some (w, w, []).

Definition modify_world (f : world → world) : M unit := λ w, Some (tt, f w, []).

Definition get_globals : M statics := λ w, Some (globals w, w, []).

(** [static = ...]. *)
Definition assign (f : statics → statics) : M unit := modify_world (set_globals f).

(** glib's [MIN], on [uint32_t]. *)
Definition MIN (a b : N) : N := if (a <? b)%N then a else b.

(** [*p] for an actor pointer: undefined when [p] does not point to an actor. *)
Definition load_actor (p : actor_ptr) : M GldiWaylandWindowActor := λ w,
  match actors w !! p with
  | Some a => Some (a, w, [])
  | None => None
  end.

(** [p->field = ...]. *)
Definition store_actor (p : actor_ptr)
    (f : GldiWaylandWindowActor → GldiWaylandWindowActor) : M unit :=
  a ← load_actor p; modify_world (set_actors <[p := f a]>).

(** ** What the file takes from elsewhere

    Constants of generated or absent headers, the GDK and desktop-manager
    lookups the file calls, and the answers of the outside world to the two
    calls whose result the file inspects. *)

Class Host := {
  (* the two protocol descriptions that wayland-scanner generates *)
  zwlr_foreign_toplevel_manager_v1_interface : wl_interface;
  ext_workspace_manager_v1_interface : wl_interface;
  (* enum zwlr_foreign_toplevel_handle_v1_state, from the generated client header *)
  ZWLR_FOREIGN_TOPLEVEL_HANDLE_V1_STATE_ACTIVATED : N;
  ZWLR_FOREIGN_TOPLEVEL_HANDLE_V1_STATE_MAXIMIZED : N;
  ZWLR_FOREIGN_TOPLEVEL_HANDLE_V1_STATE_MINIMIZED : N;
  ZWLR_FOREIGN_TOPLEVEL_HANDLE_V1_STATE_FULLSCREEN : N;
  (* constants of the dock's window-manager headers *)
  GLDI_DESKTOP_ALL : Z;
  GLDI_WM_NO_VIEWPORT_OVERLAP : Z;
  GLDI_WM_GEOM_REL_TO_VIEWPORT : Z;
  GLDI_WM_HAVE_WORKSPACES : Z;
  (* GDK and the dock's desktop manager *)
  gdk_display_get_default : option GdkDisplay;
  gdk_display_get_default_seat : option GdkDisplay → option GdkSeat;
  gdk_wayland_seat_get_wl_seat : option GdkSeat → option wl_seat;
  gldi_container_get_gdk_window : GldiContainer → option GdkWindow;
  gdk_wayland_window_get_wl_surface : GdkWindow → option wl_surface;
  cairo_dock_get_screen_width : Z → Z;
  cairo_dock_get_screen_height : Z → Z;
  (* whether a command line could be launched *)
  spawn_outcome : string → spawn_result;
  (* the proxy, or NULL, that a bind hands back *)
  bind_outcome : wl_registry → N → wl_interface → N → option wl_proxy
}.

(** ** The file *)

Section Niri.

Context `{Host}.

(** *** Niri IPC helper functions *)

Definition NIRI_IPC_CMD : string := "niri".

Definition g_spawn_command_line_async (command : string) : M spawn_result :=
  emit (E_spawn command);; mret (spawn_outcome command).

Definition cd_warning (text : string) : M unit := emit (E_warning text).

Definition cd_message (text : string) : M unit := emit (E_message text).

Definition _niri_ipc_action (action : string) (arg : option string) : M unit :=
  let command :=
    match arg with
    | Some arg => NIRI_IPC_CMD +:+ " msg action " +:+ action +:+ " " +:+ arg
    | None => NIRI_IPC_CMD +:+ " msg action " +:+ action
    end in
  r ← g_spawn_command_line_async command;
  match r with
  | spawn_ok => mret tt
  | spawn_failed error =>
      cd_warning ("Niri Integration: Failed to execute IPC command '" +:+ command
                  +:+ "': " +:+ default "Unknown error" error)
  end.

Definition zwlr_foreign_toplevel_handle_v1_activate
    (h : option wfthandle) (seat : option wl_seat) : M unit :=
  emit (Req_activate h seat).

Definition _niri_move_window_to_workspace
    (wactor : option actor_ptr) (workspace_idx : Z) : M unit :=
  match wactor with
  | None => mret tt
  | Some p =>
      a ← load_actor p;
      match handle a with
      | None => mret tt
      | Some _ =>
          (* 1. Activate Window *)
          let dsp := gdk_display_get_default in
          let seat := gdk_display_get_default_seat dsp in
          let wl_seat := gdk_wayland_seat_get_wl_seat seat in
          zwlr_foreign_toplevel_handle_v1_activate (handle a) wl_seat;;
          (* 2. Move via IPC *)
          let idx_str := printf_d (int_add workspace_idx 1) in
          _niri_ipc_action "move-window-to-workspace" (Some idx_str)
      end
  end.

(** *** Window manager backend interface *)

Definition _show (actor : option actor_ptr) : M unit :=
  match actor with
  | None => undefined
  | Some p =>
      a ← load_actor p;
      let dsp := gdk_display_get_default in
      let seat := gdk_display_get_default_seat dsp in
      let wl_seat := gdk_wayland_seat_get_wl_seat seat in
      zwlr_foreign_toplevel_handle_v1_activate (handle a) wl_seat
  end.

Definition _close (actor : option actor_ptr) : M unit :=
  match actor with
  | None => undefined
  | Some p => a ← load_actor p; emit (Req_close (handle a))
  end.

Definition _minimize (actor : option actor_ptr) : M unit :=
  match actor with
  | None => undefined
  | Some p => a ← load_actor p; emit (Req_set_minimized (handle a))
  end.

Definition _maximize (actor : option actor_ptr) (bMaximize : gboolean) : M unit :=
  match actor with
  | None => undefined
  | Some p =>
      a ← load_actor p;
      if bMaximize then emit (Req_set_maximized (handle a))
      else emit (Req_unset_maximized (handle a))
  end.

Definition _set_fullscreen (actor : option actor_ptr) (bFullScreen : gboolean) : M unit :=
  match actor with
  | None => undefined
  | Some p =>
      a ← load_actor p;
      if bFullScreen then emit (Req_set_fullscreen (handle a) None)
      else emit (Req_unset_fullscreen (handle a))
  end.

Definition _move_to_nth_desktop
    (actor : option actor_ptr) (iNumDesktop : Z) (x y : Z) : M unit :=
  let wactor := actor in
  _niri_move_window_to_workspace wactor iNumDesktop.

Definition _get_transient_for (actor : option actor_ptr) : M (option actor_ptr) :=
  match actor with
  | None => undefined
  | Some p =>
      a ← load_actor p;
      match parent a with
      | None => mret None
      | Some parent => w ← get_world; mret (user_data w !! parent)
      end
  end.

Definition zwlr_foreign_toplevel_handle_v1_set_rectangle
    (h : option wfthandle) (surface : wl_surface) (x y w h' : Z) : M unit :=
  emit (Req_set_rectangle h surface x y w h').

Definition _set_thumbnail_area
    (actor : option actor_ptr) (pContainer : option GldiContainer)
    (x y w h : Z) : M unit :=
  match actor, pContainer with
  | Some p, Some c =>
      match gldi_container_get_gdk_window c with
      | None => mret tt
      | Some window =>
          match gdk_wayland_window_get_wl_surface window with
          | None => mret tt
          | Some surface =>
              a ← load_actor p;
              zwlr_foreign_toplevel_handle_v1_set_rectangle (handle a) surface x y w h
          end
      end
  | _, _ => mret tt
  end.

(** A [gboolean *] argument is [None] when it is [NULL] and otherwise holds
    what the pointed-to variable contains; a function gives back what its
    arguments point to when it returns.  [*p = v] through a null pointer is
    undefined, and the whole call has no result then. *)
Definition non_null {A : Type} (p : option A) : bool :=
  match p with
  | Some _ => true
  | None => false
  end.

Definition deref_store (p : option gboolean) (v : gboolean)
    : option (option gboolean) :=
  match p with
  | Some _ => Some (Some v)
  | None => None
  end.

Definition _can_minimize_maximize_close (actor : option actor_ptr)
    (bCanMinimize bCanMaximize bCanClose : option gboolean)
    : option (option gboolean * option gboolean * option gboolean) :=
  bCanMinimize ← deref_store bCanMinimize TRUE;
  bCanMaximize ← deref_store bCanMaximize TRUE;
  bCanClose ← deref_store bCanClose TRUE;
  Some (bCanMinimize, bCanMaximize, bCanClose).

Definition _get_supported_actions
    (bCanFullscreen bCanSticky bCanBelow bCanAbove bCanKill : option gboolean)
    : option (option gboolean * option gboolean * option gboolean
              * option gboolean * option gboolean) :=
  bCanFullscreen ←
    (if non_null bCanFullscreen then deref_store bCanFullscreen TRUE
     else Some bCanFullscreen);
  bCanSticky ←
    (if non_null bCanSticky then deref_store bCanSticky FALSE else Some bCanSticky);
  bCanBelow ←
    (if non_null bCanBelow then deref_store bCanBelow FALSE else Some bCanBelow);
  bCanAbove ←
    (if non_null bCanAbove then deref_store bCanAbove FALSE else Some bCanAbove);
  bCanKill ←
    (if non_null bCanKill then deref_store bCanKill FALSE else Some bCanKill);
  Some (bCanFullscreen, bCanSticky, bCanBelow, bCanAbove, bCanKill).

(** *** wlr_foreign_toplevel callbacks *)

(** Modelled from the spec: [gldi_wayland_wm_activated],
    [gldi_wayland_wm_maximized_changed], [gldi_wayland_wm_minimized_changed]
    and [gldi_wayland_wm_fullscreen_changed] are defined in
    cairo-dock-wayland-wm.c, which is not part of the sources at hand.  The
    call, with its arguments, is an effect of this file.  What the callee
    does is by sections 3 and 6 of the specification: it records one
    boolean of the Window Shadow; the last argument says whether to notify
    at once, and this file always passes [FALSE]. *)
Definition gldi_wayland_wm_activated
    (wactor : actor_ptr) (activated notify : gboolean) : M unit :=
  emit (E_wm_activated wactor activated notify);;
  store_actor wactor (set_activated activated).

Definition gldi_wayland_wm_maximized_changed
    (wactor : actor_ptr) (maximized notify : gboolean) : M unit :=
  emit (E_wm_maximized_changed wactor maximized notify);;
  store_actor wactor (set_maximized maximized).

Definition gldi_wayland_wm_minimized_changed
    (wactor : actor_ptr) (minimized notify : gboolean) : M unit :=
  emit (E_wm_minimized_changed wactor minimized notify);;
  store_actor wactor (set_minimized minimized).

Definition gldi_wayland_wm_fullscreen_changed
    (wactor : actor_ptr) (fullscreen notify : gboolean) : M unit :=
  emit (E_wm_fullscreen_changed wactor fullscreen notify);;
  store_actor wactor (set_fullscreen fullscreen).

(** The body of the [switch] in [_toplevel_state_cb], on the four locals
    [activated], [maximized], [minimized], [fullscreen]. *)
Definition state_switch (v : N) (locals : gboolean * gboolean * gboolean * gboolean)
    : gboolean * gboolean * gboolean * gboolean :=
  let '(activated, maximized, minimized, fullscreen) := locals in
  if (v =? ZWLR_FOREIGN_TOPLEVEL_HANDLE_V1_STATE_ACTIVATED)%N
  then (TRUE, maximized, minimized, fullscreen)
  else if (v =? ZWLR_FOREIGN_TOPLEVEL_HANDLE_V1_STATE_MAXIMIZED)%N
  then (activated, TRUE, minimized, fullscreen)
  else if (v =? ZWLR_FOREIGN_TOPLEVEL_HANDLE_V1_STATE_MINIMIZED)%N
  then (activated, maximized, TRUE, fullscreen)
  else if (v =? ZWLR_FOREIGN_TOPLEVEL_HANDLE_V1_STATE_FULLSCREEN)%N
  then (activated, maximized, minimized, TRUE)
  else locals.

(** Its [for] loop.  A [struct wl_array] of states is the list of its
    [uint32_t] entries, [state->size] being four times the length; the loop
    visits them from index 0 upwards. *)
Fixpoint state_loop (stdata : list N)
    (locals : gboolean * gboolean * gboolean * gboolean)
    : gboolean * gboolean * gboolean * gboolean :=
  match stdata with
  | [] => locals
  | v :: stdata => state_loop stdata (state_switch v locals)
  end.

Definition _toplevel_state_cb
    (data : option actor_ptr) (handle : wfthandle) (state : list N) : M unit :=
  match data with
  | None => mret tt
  | Some wactor =>
      let '(activated, maximized, minimized, fullscreen) :=
        state_loop state (FALSE, FALSE, FALSE, FALSE) in
      gldi_wayland_wm_activated wactor activated FALSE;;
      gldi_wayland_wm_maximized_changed wactor maximized FALSE;;
      gldi_wayland_wm_minimized_changed wactor minimized FALSE;;
      gldi_wayland_wm_fullscreen_changed wactor fullscreen FALSE
  end.

Definition _toplevel_parent_cb
    (data : option actor_ptr) (handle : wfthandle) (parent : option wfthandle)
    : M unit :=
  match data with
  | None => undefined
  | Some wactor => store_actor wactor (set_parent parent)
  end.

(** Modelled from the spec: [gldi_wayland_wm_new_toplevel] is defined in
    cairo-dock-wayland-wm.c, which is not part of the sources at hand.  The
    call is an effect of this file.  By section 4.2 of the specification
    the callee allocates a Window Shadow for the handle: a new actor at an
    unused address, zero-initialised but for its handle. *)
Definition gldi_wayland_wm_new_toplevel (handle : wfthandle) : M actor_ptr := λ w,
  let p := fresh (dom (actors w)) in
  let a := {| iNumDesktop := 0;
              windowGeometry := {| geo_x := 0; geo_y := 0; geo_width := 0; geo_height := 0 |};
              handle := Some handle; parent := None;
              activated := FALSE; maximized := FALSE;
              minimized := FALSE; fullscreen := FALSE |} in
  Some (p, set_actors <[p := a]> w, [E_wm_new_toplevel handle]).

Definition zwlr_foreign_toplevel_handle_v1_set_user_data
    (handle : wfthandle) (data : actor_ptr) : M unit :=
  modify_world (set_user_data <[handle := data]>).

(** [zwlr_foreign_toplevel_handle_v1_add_listener (handle,
    &toplevel_handle_listener, data)]. *)
Definition zwlr_foreign_toplevel_handle_v1_add_listener
    (handle : wfthandle) (data : actor_ptr) : M unit :=
  modify_world (set_listeners <[handle := data]>).

Definition _toplevel_manager_toplevel (handle : wfthandle) : M unit :=
  wactor ← gldi_wayland_wm_new_toplevel handle;
  zwlr_foreign_toplevel_handle_v1_set_user_data handle wactor;;
  (* Set default to show on all desktops. *)
  store_actor wactor (set_iNumDesktop GLDI_DESKTOP_ALL);;
  (* Initial geometry (center of screen) *)
  let actor := wactor in
  store_actor actor (set_windowGeometry (set_geo_x (cairo_dock_get_screen_width 0 `quot` 2)));;
  store_actor actor (set_windowGeometry (set_geo_y (cairo_dock_get_screen_height 0 `quot` 2)));;
  store_actor actor (set_windowGeometry (set_geo_width 1));;
  store_actor actor (set_windowGeometry (set_geo_height 1));;
  zwlr_foreign_toplevel_handle_v1_add_listener handle wactor.

(** *** Initialization / entry point *)

Definition gldi_niri_toplevel_match_protocol
    (id : N) (interface : string) (version : N) : M gboolean :=
  if String.eqb interface (name zwlr_foreign_toplevel_manager_v1_interface) then
    assign (set_toplevel_found TRUE);;
    assign (set_toplevel_id id);;
    assign (set_toplevel_ver version);;
    mret TRUE
  else if String.eqb interface (name ext_workspace_manager_v1_interface) then
    assign (set_workspace_found TRUE);;
    assign (set_workspace_id id);;
    assign (set_workspace_ver version);;
    mret TRUE
  else mret FALSE.

Definition wl_registry_bind
    (registry : wl_registry) (id : N) (iface : wl_interface) (ver : N)
    : M (option wl_proxy) :=
  emit (Req_bind registry id iface ver);;
  mret (bind_outcome registry id iface ver).

Definition gldi_niri_toplevel_try_init (registry : wl_registry) : M gboolean :=
  g ← get_globals;
  (* We require at least the toplevel manager to function *)
  if negb (toplevel_found g) then mret FALSE else
  (* Bind Toplevel Manager *)
  assign (set_toplevel_ver
            (MIN (toplevel_ver g) (version zwlr_foreign_toplevel_manager_v1_interface)));;
  g ← get_globals;
  p ← wl_registry_bind registry (toplevel_id g)
        zwlr_foreign_toplevel_manager_v1_interface (toplevel_ver g);
  assign (set_s_ptoplevel_manager p);;
  (* Bind Workspace Manager (if available) *)
  g ← get_globals;
  (if workspace_found g then
     assign (set_workspace_ver
               (MIN (workspace_ver g) (version ext_workspace_manager_v1_interface)));;
     g ← get_globals;
     p ← wl_registry_bind registry (workspace_id g)
           ext_workspace_manager_v1_interface (workspace_ver g);
     assign (set_s_pworkspace_manager p)
   else mret tt);;
  g ← get_globals;
  match s_ptoplevel_manager g with
  | Some toplevel_manager =>
      (* Start listening to protocols *)
      emit (E_manager_add_listener toplevel_manager);;
      (match s_pworkspace_manager g with
       | Some workspace_manager =>
           emit (E_ext_workspaces_register_manager workspace_manager)
       | None => mret tt
       end);;
      (* Register the Window Manager Backend *)
      let flags := Z.lor GLDI_WM_NO_VIEWPORT_OVERLAP GLDI_WM_GEOM_REL_TO_VIEWPORT in
      let flags :=
        if non_null (s_pworkspace_manager g)
        then Z.lor flags GLDI_WM_HAVE_WORKSPACES else flags in
      let wmb := {|
        wmb_get_active_window := Some Fn_gldi_wayland_wm_get_active_window;
        wmb_move_to_nth_desktop := Some Fn_move_to_nth_desktop;
        wmb_show := Some Fn_show;
        wmb_close := Some Fn_close;
        wmb_minimize := Some Fn_minimize;
        wmb_maximize := Some Fn_maximize;
        wmb_set_fullscreen := Some Fn_set_fullscreen;
        wmb_set_thumbnail_area := Some Fn_set_thumbnail_area;
        wmb_get_transient_for := Some Fn_get_transient_for;
        wmb_can_minimize_maximize_close := Some Fn_can_minimize_maximize_close;
        wmb_pick_window := Some Fn_gldi_wayland_wm_pick_window;
        wmb_get_supported_actions := Some Fn_get_supported_actions;
        wmb_flags := flags;
        wmb_name := Some "Niri"
      |} in
      emit (E_register_backend wmb);;
      emit E_wayland_wm_init;;
      cd_message "Niri integration initialized successfully.";;
      mret TRUE
  | None => mret FALSE
  end.

(** *** How the file is driven *)

(** The registry listener of the Wayland bootstrap offers every
    advertisement to [gldi_niri_toplevel_match_protocol], in order. *)
Fixpoint registry_scan (ads : list (N * string * N)) : M unit :=
  match ads with
  | [] => mret tt
  | (id, interface, version) :: ads =>
      gldi_niri_toplevel_match_protocol id interface version;;
      registry_scan ads
  end.

(** libwayland calls the [state] member of [toplevel_handle_listener] once
    per state event of a handle, always with the [data] the listener was
    added with. *)
Fixpoint deliver_states
    (data : option actor_ptr) (handle : wfthandle) (events : list (list N)) : M unit :=
  match events with
  | [] => mret tt
  | state :: events =>
      _toplevel_state_cb data handle state;;
      deliver_states data handle events
  end.

End Niri.

(** ** Vocabulary of the properties

    Names for what the functions above compute, used to state what they do. *)

Section Vocabulary.

Context `{Host}.

(** What [_niri_ipc_action] logs after it tried to launch [command]. *)
Definition dispatch_report (command : string) : list effect :=
  match spawn_outcome command with
  | spawn_ok => []
  | spawn_failed error =>
      [E_warning ("Niri Integration: Failed to execute IPC command '" +:+ command
                  +:+ "': " +:+ default "Unknown error" error)]
  end.

(** The four state values are the labels of one [switch]: no two are equal. *)
Definition state_labels : list N :=
  [ZWLR_FOREIGN_TOPLEVEL_HANDLE_V1_STATE_ACTIVATED;
   ZWLR_FOREIGN_TOPLEVEL_HANDLE_V1_STATE_MAXIMIZED;
   ZWLR_FOREIGN_TOPLEVEL_HANDLE_V1_STATE_MINIMIZED;
   ZWLR_FOREIGN_TOPLEVEL_HANDLE_V1_STATE_FULLSCREEN].

(** The calls one state event makes into the generic helper. *)
Definition state_calls (wactor : actor_ptr)
    (locals : gboolean * gboolean * gboolean * gboolean) : list effect :=
  let '(activated, maximized, minimized, fullscreen) := locals in
  [E_wm_activated wactor activated FALSE;
   E_wm_maximized_changed wactor maximized FALSE;
   E_wm_minimized_changed wactor minimized FALSE;
   E_wm_fullscreen_changed wactor fullscreen FALSE].

(** The actor after one state event. *)
Definition with_state (locals : gboolean * gboolean * gboolean * gboolean)
    (a : GldiWaylandWindowActor) : GldiWaylandWindowActor :=
  let '(activated, maximized, minimized, fullscreen) := locals in
  set_fullscreen fullscreen
    (set_minimized minimized (set_maximized maximized (set_activated activated a))).

(** What [_toplevel_manager_toplevel] does before it subscribes to the
    handle: everything but its last statement. *)
Definition toplevel_before_listener (handle : wfthandle) : M actor_ptr :=
  wactor ← gldi_wayland_wm_new_toplevel handle;
  zwlr_foreign_toplevel_handle_v1_set_user_data handle wactor;;
  store_actor wactor (set_iNumDesktop GLDI_DESKTOP_ALL);;
  let actor := wactor in
  store_actor actor (set_windowGeometry (set_geo_x (cairo_dock_get_screen_width 0 `quot` 2)));;
  store_actor actor (set_windowGeometry (set_geo_y (cairo_dock_get_screen_height 0 `quot` 2)));;
  store_actor actor (set_windowGeometry (set_geo_width 1));;
  store_actor actor (set_windowGeometry (set_geo_height 1));;
  mret wactor.

(** The actor [_toplevel_manager_toplevel] leaves behind for a handle. *)
Definition seeded_actor (handle : wfthandle) : GldiWaylandWindowActor := {|
  iNumDesktop := GLDI_DESKTOP_ALL;
  windowGeometry := {|
    geo_x := cairo_dock_get_screen_width 0 `quot` 2;
    geo_y := cairo_dock_get_screen_height 0 `quot` 2;
    geo_width := 1;
    geo_height := 1 |};
  handle := Some handle;
  parent := None;
  activated := FALSE;
  maximized := FALSE;
  minimized := FALSE;
  fullscreen := FALSE
|}.

(** An interface is advertised in a scan when one advertisement carries
    its name. *)
Definition advertised (iface : wl_interface) (ads : list (N * string * N)) : Prop :=
  Exists (λ ad, ad.1.2 = name iface) ads.

(** The statics after [gldi_niri_toplevel_match_protocol]. *)
Definition recorded (id : N) (interface : string) (ver : N) (g : statics) : statics :=
  if String.eqb interface (name zwlr_foreign_toplevel_manager_v1_interface)
  then set_toplevel_ver ver (set_toplevel_id id (set_toplevel_found TRUE g))
  else if String.eqb interface (name ext_workspace_manager_v1_interface)
  then set_workspace_ver ver (set_workspace_id id (set_workspace_found TRUE g))
  else g.

(** The statics after a whole scan. *)
Definition scanned (ads : list (N * string * N)) (g : statics) : statics :=
  foldl (λ g ad, recorded ad.1.1 ad.1.2 ad.2 g) g ads.

(** The descriptor [gldi_niri_toplevel_try_init] registers, for the value
    of its local [flags]. *)
Definition niri_backend (flags : Z) : GldiWindowManagerBackend := {|
  wmb_get_active_window := Some Fn_gldi_wayland_wm_get_active_window;
  wmb_move_to_nth_desktop := Some Fn_move_to_nth_desktop;
  wmb_show := Some Fn_show;
  wmb_close := Some Fn_close;
  wmb_minimize := Some Fn_minimize;
  wmb_maximize := Some Fn_maximize;
  wmb_set_fullscreen := Some Fn_set_fullscreen;
  wmb_set_thumbnail_area := Some Fn_set_thumbnail_area;
  wmb_get_transient_for := Some Fn_get_transient_for;
  wmb_can_minimize_maximize_close := Some Fn_can_minimize_maximize_close;
  wmb_pick_window := Some Fn_gldi_wayland_wm_pick_window;
  wmb_get_supported_actions := Some Fn_get_supported_actions;
  wmb_flags := flags;
  wmb_name := Some "Niri"
|}.

(** The operations of a descriptor: its function pointers, in the order
    of the assignments in [gldi_niri_toplevel_try_init]. *)
Definition wmb_operations (wmb : GldiWindowManagerBackend) : list (option backend_fn) :=
  [wmb_get_active_window wmb; wmb_move_to_nth_desktop wmb; wmb_show wmb;
   wmb_close wmb; wmb_minimize wmb; wmb_maximize wmb; wmb_set_fullscreen wmb;
   wmb_set_thumbnail_area wmb; wmb_get_transient_for wmb;
   wmb_can_minimize_maximize_close wmb; wmb_pick_window wmb;
   wmb_get_supported_actions wmb].

(** The statics and the effects of the two binds. *)
Definition bound_toplevel (registry : wl_registry) (g : statics) : statics :=
  let ver := MIN (toplevel_ver g) (version zwlr_foreign_toplevel_manager_v1_interface) in
  set_s_ptoplevel_manager
    (bind_outcome registry (toplevel_id g) zwlr_foreign_toplevel_manager_v1_interface ver)
    (set_toplevel_ver ver g).

Definition bound_workspace (registry : wl_registry) (g : statics) : statics :=
  if workspace_found g then
    let ver := MIN (workspace_ver g) (version ext_workspace_manager_v1_interface) in
    set_s_pworkspace_manager
      (bind_outcome registry (workspace_id g) ext_workspace_manager_v1_interface ver)
      (set_workspace_ver ver g)
  else g.

Definition bind_requests (registry : wl_registry) (g : statics) : list effect :=
  Req_bind registry (toplevel_id g) zwlr_foreign_toplevel_manager_v1_interface
    (MIN (toplevel_ver g) (version zwlr_foreign_toplevel_manager_v1_interface))
  :: (if workspace_found g then
        [Req_bind registry (workspace_id g) ext_workspace_manager_v1_interface
           (MIN (workspace_ver g) (version ext_workspace_manager_v1_interface))]
      else []).

(** What follows the binds, from the statics they leave. *)
Definition registration (g : statics) : gboolean * list effect :=
  match s_ptoplevel_manager g with
  | Some toplevel_manager =>
      (TRUE,
       E_manager_add_listener toplevel_manager
       :: match s_pworkspace_manager g with
          | Some workspace_manager => [E_ext_workspaces_register_manager workspace_manager]
          | None => []
          end
       ++ [E_register_backend
             (niri_backend
                (if non_null (s_pworkspace_manager g)
                 then Z.lor (Z.lor GLDI_WM_NO_VIEWPORT_OVERLAP GLDI_WM_GEOM_REL_TO_VIEWPORT)
                        GLDI_WM_HAVE_WORKSPACES
                 else Z.lor GLDI_WM_NO_VIEWPORT_OVERLAP GLDI_WM_GEOM_REL_TO_VIEWPORT));
           E_wayland_wm_init;
           E_message "Niri integration initialized successfully."])
  | None => (FALSE, [])
  end.

End Vocabulary.

(** ** Vocabulary for the rest of the file *)

Section BridgeVocabulary.

Context `{Host}.

(** The dock reaches the window operations of the file through the
    descriptor it was given.  A call names the member used and carries the
    arguments that follow the actor. *)
Inductive bridge_call :=
| Call_show
| Call_close
| Call_minimize
| Call_maximize (bMaximize : gboolean)
| Call_set_fullscreen (bFullScreen : gboolean)
| Call_move_to_nth_desktop (iNumDesktop x y : Z)
| Call_set_thumbnail_area (pContainer : option GldiContainer) (x y w h : Z).

Definition invoke (call : bridge_call) (actor : option actor_ptr) : M unit :=
  match call with
  | Call_show => _show actor
  | Call_close => _close actor
  | Call_minimize => _minimize actor
  | Call_maximize bMaximize => _maximize actor bMaximize
  | Call_set_fullscreen bFullScreen => _set_fullscreen actor bFullScreen
  | Call_move_to_nth_desktop iNumDesktop x y => _move_to_nth_desktop actor iNumDesktop x y
  | Call_set_thumbnail_area pContainer x y w h =>
      _set_thumbnail_area actor pContainer x y w h
  end.

(** The calls whose function tests the actor for [NULL] before using it. *)
Definition checks_actor (call : bridge_call) : bool :=
  match call with
  | Call_move_to_nth_desktop _ _ _ | Call_set_thumbnail_area _ _ _ _ _ => true
  | _ => false
  end.

(** The proxy a request of [zwlr_foreign_toplevel_handle_v1] is sent on;
    [None] for an effect that is no such request. *)
Definition request_target (e : effect) : option (option wfthandle) :=
  match e with
  | Req_activate h _ | Req_close h | Req_set_minimized h | Req_set_maximized h
  | Req_unset_maximized h | Req_set_fullscreen h _ | Req_unset_fullscreen h
  | Req_set_rectangle h _ _ _ _ _ => Some h
  | _ => None
  end.

(** The Wayland surface of a container, when it has one. *)
Definition resolve_surface (pContainer : option GldiContainer) : option wl_surface :=
  c ← pContainer;
  window ← gldi_container_get_gdk_window c;
  gdk_wayland_window_get_wl_surface window.

(** Reading a decimal number back, as the receiver of a command does. *)
Definition parse_decimal (s : string) : option Z :=
  Z.of_int <$> NilZero.int_of_string s.

(** An advertisement the file has a use for. *)
Definition relevant (ad : N * string * N) : bool :=
  String.eqb ad.1.2 (name zwlr_foreign_toplevel_manager_v1_interface)
  || String.eqb ad.1.2 (name ext_workspace_manager_v1_interface).

(** Kinds of effects of the initialization. *)
Definition is_bind (e : effect) : bool :=
  match e with Req_bind _ _ _ _ => true | _ => false end.

Definition is_register_backend (e : effect) : bool :=
  match e with E_register_backend _ => true | _ => false end.

Definition is_manager_add_listener (e : effect) : bool :=
  match e with E_manager_add_listener _ => true | _ => false end.

Definition is_wayland_wm_init (e : effect) : bool :=
  match e with E_wayland_wm_init => true | _ => false end.

End BridgeVocabulary.

(** ** A host and a world to run the file on *)

Definition example_host : Host := {|
  zwlr_foreign_toplevel_manager_v1_interface :=
    {| name := "zwlr_foreign_toplevel_manager_v1"; version := 3 |};
  ext_workspace_manager_v1_interface :=
    {| name := "ext_workspace_manager_v1"; version := 1 |};
  ZWLR_FOREIGN_TOPLEVEL_HANDLE_V1_STATE_ACTIVATED := 2;
  ZWLR_FOREIGN_TOPLEVEL_HANDLE_V1_STATE_MAXIMIZED := 0;
  ZWLR_FOREIGN_TOPLEVEL_HANDLE_V1_STATE_MINIMIZED := 1;
  ZWLR_FOREIGN_TOPLEVEL_HANDLE_V1_STATE_FULLSCREEN := 3;
  GLDI_DESKTOP_ALL := -1;
  GLDI_WM_NO_VIEWPORT_OVERLAP := 1;
  GLDI_WM_GEOM_REL_TO_VIEWPORT := 2;
  GLDI_WM_HAVE_WORKSPACES := 8;
  gdk_display_get_default := Some 1%positive;
  gdk_display_get_default_seat := λ _, Some 2%positive;
  gdk_wayland_seat_get_wl_seat := λ _, Some 3%positive;
  (* container 9 is not realized; the window of container 8 has no surface *)
  gldi_container_get_gdk_window :=
    λ c, if (c =? 9)%positive then None else Some (c + 10)%positive;
  gdk_wayland_window_get_wl_surface :=
    λ window, if (window =? 18)%positive then None else Some (window + 10)%positive;
  cairo_dock_get_screen_width := λ _, 1920;
  cairo_dock_get_screen_height := λ _, 1080;
  spawn_outcome := λ _, spawn_ok;
  bind_outcome := λ _ id _ _, Some (N.succ_pos id)
|}.

(** The same host on a day when no command can be launched. *)
Definition example_host_without_niri : Host := {|
  zwlr_foreign_toplevel_manager_v1_interface :=
    @zwlr_foreign_toplevel_manager_v1_interface example_host;
  ext_workspace_manager_v1_interface := @ext_workspace_manager_v1_interface example_host;
  ZWLR_FOREIGN_TOPLEVEL_HANDLE_V1_STATE_ACTIVATED := 2;
  ZWLR_FOREIGN_TOPLEVEL_HANDLE_V1_STATE_MAXIMIZED := 0;
  ZWLR_FOREIGN_TOPLEVEL_HANDLE_V1_STATE_MINIMIZED := 1;
  ZWLR_FOREIGN_TOPLEVEL_HANDLE_V1_STATE_FULLSCREEN := 3;
  GLDI_DESKTOP_ALL := -1;
  GLDI_WM_NO_VIEWPORT_OVERLAP := 1;
  GLDI_WM_GEOM_REL_TO_VIEWPORT := 2;
  GLDI_WM_HAVE_WORKSPACES := 8;
  gdk_display_get_default := Some 1%positive;
  gdk_display_get_default_seat := λ _, Some 2%positive;
  gdk_wayland_seat_get_wl_seat := λ _, Some 3%positive;
  gldi_container_get_gdk_window := @gldi_container_get_gdk_window example_host;
  gdk_wayland_window_get_wl_surface := @gdk_wayland_window_get_wl_surface example_host;
  cairo_dock_get_screen_width := λ _, 1920;
  cairo_dock_get_screen_height := λ _, 1080;
  spawn_outcome := λ _, spawn_failed (Some "No such file or directory");
  bind_outcome := λ _ id _ _, Some (N.succ_pos id)
|}.

(** One window, maximized, whose handle is at address 7. *)
Definition example_actor : GldiWaylandWindowActor := {|
  iNumDesktop := 0;
  windowGeometry := {| geo_x := 0; geo_y := 0; geo_width := 800; geo_height := 600 |};
  handle := Some 7%positive;
  parent := None;
  activated := FALSE;
  maximized := TRUE;
  minimized := FALSE;
  fullscreen := FALSE
|}.

(** The same window after its handle was given up. *)
Definition example_orphan : GldiWaylandWindowActor := {|
  iNumDesktop := 0;
  windowGeometry := {| geo_x := 0; geo_y := 0; geo_width := 800; geo_height := 600 |};
  handle := None;
  parent := None;
  activated := FALSE;
  maximized := TRUE;
  minimized := FALSE;
  fullscreen := FALSE
|}.

Definition example_world : world := {|
  globals := initial_statics;
  actors := <[1%positive := example_actor]> (<[2%positive := example_orphan]> ∅);
  user_data := <[7%positive := 1%positive]> ∅;
  listeners := <[7%positive := 1%positive]> ∅
|}.

(** A host whose registry gives no workspace manager, and one whose
    registry gives no proxy at all. *)
Definition example_host_with_bind
    (outcome : wl_registry → N → wl_interface → N → option wl_proxy) : Host := {|
  zwlr_foreign_toplevel_manager_v1_interface :=
    @zwlr_foreign_toplevel_manager_v1_interface example_host;
  ext_workspace_manager_v1_interface := @ext_workspace_manager_v1_interface example_host;
  ZWLR_FOREIGN_TOPLEVEL_HANDLE_V1_STATE_ACTIVATED := 2;
  ZWLR_FOREIGN_TOPLEVEL_HANDLE_V1_STATE_MAXIMIZED := 0;
  ZWLR_FOREIGN_TOPLEVEL_HANDLE_V1_STATE_MINIMIZED := 1;
  ZWLR_FOREIGN_TOPLEVEL_HANDLE_V1_STATE_FULLSCREEN := 3;
  GLDI_DESKTOP_ALL := -1;
  GLDI_WM_NO_VIEWPORT_OVERLAP := 1;
  GLDI_WM_GEOM_REL_TO_VIEWPORT := 2;
  GLDI_WM_HAVE_WORKSPACES := 8;
  gdk_display_get_default := Some 1%positive;
  gdk_display_get_default_seat := λ _, Some 2%positive;
  gdk_wayland_seat_get_wl_seat := λ _, Some 3%positive;
  gldi_container_get_gdk_window := @gldi_container_get_gdk_window example_host;
  gdk_wayland_window_get_wl_surface := @gdk_wayland_window_get_wl_surface example_host;
  cairo_dock_get_screen_width := λ _, 1920;
  cairo_dock_get_screen_height := λ _, 1080;
  spawn_outcome := λ _, spawn_ok;
  bind_outcome := outcome
|}.

Definition example_host_without_workspace_proxy : Host :=
  example_host_with_bind
    (λ _ id iface _,
       if String.eqb (name iface) "ext_workspace_manager_v1" then None
       else Some (N.succ_pos id)).

Definition example_host_without_proxies : Host :=
  example_host_with_bind (λ _ _ _ _, None).

(** The example world after a scan that found both protocols. *)
Definition example_world_scanned : world := {|
  globals := {|
    s_ptoplevel_manager := None;
    s_pworkspace_manager := None;
    toplevel_id := 40;
    toplevel_ver := 5;
    workspace_id := 41;
    workspace_ver := 2;
    toplevel_found := TRUE;
    workspace_found := TRUE |};
  actors := actors example_world;
  user_data := user_data example_world;
  listeners := listeners example_world
|}.

(** ** Properties *)

Section Facts.

Context `{Host}.

(** *** Running the monad *)

Lemma run_ret {A : Type} (a : A) (w : world) : (mret a : M A) w = Some (a, w, []).
Proof. reflexivity. Qed.

Lemma run_bind {A B : Type} (m : M A) (f : A → M B) (w : world) :
  (m ≫= f) w =
  match m w with
  | Some (a, w1, out1) =>
      match f a w1 with
      | Some (b, w2, out2) => Some (b, w2, out1 ++ out2)
      | None => None
      end
  | None => None
  end.
Proof. reflexivity. Qed.

Lemma run_load_actor (p : actor_ptr) (a : GldiWaylandWindowActor) (w : world) :
  actors w !! p = Some a → load_actor p w = Some (a, w, []).
Proof. intros Hp. unfold load_actor. by rewrite Hp. Qed.

Lemma run_store_actor (p : actor_ptr) (a : GldiWaylandWindowActor)
    (f : GldiWaylandWindowActor → GldiWaylandWindowActor) (w : world) :
  actors w !! p = Some a →
  store_actor p f w = Some (tt, set_actors <[p := f a]> w, []).
Proof.
  intros Hp. unfold store_actor. rewrite run_bind, (run_load_actor p a) by done.
  reflexivity.
Qed.

(** *** C [int] *)

Lemma int_add_exact (a b : Z) :
  INT_MIN ≤ a + b ≤ INT_MAX → int_add a b = a + b.
Proof.
  unfold int_add, wrap_int, INT_MIN, INT_MAX. intros Hr.
  rewrite Z.mod_small by lia. lia.
Qed.

(** *** The control channel *)

Lemma dispatch_report_warnings (command : string) (e : effect) :
  e ∈ dispatch_report command → ∃ text, e = E_warning text.
Proof.
  unfold dispatch_report. destruct (spawn_outcome command); intros He.
  - by apply elem_of_nil in He.
  - apply list_elem_of_singleton in He. eauto.
Qed.

Lemma run_niri_ipc_action (action arg : string) (w : world) :
  _niri_ipc_action action (Some arg) w =
  Some (tt, w, E_spawn ("niri msg action " +:+ action +:+ " " +:+ arg)
               :: dispatch_report ("niri msg action " +:+ action +:+ " " +:+ arg)).
Proof.
  unfold _niri_ipc_action, dispatch_report, g_spawn_command_line_async, cd_warning.
  rewrite !run_bind. cbn.
  by destruct (spawn_outcome _).
Qed.

Lemma run_niri_move_window_to_workspace
    (w : world) (p : actor_ptr) (a : GldiWaylandWindowActor) (h : wfthandle) (n : Z) :
  actors w !! p = Some a → handle a = Some h → INT_MIN ≤ n < INT_MAX →
  _niri_move_window_to_workspace (Some p) n w =
  Some (tt, w,
        Req_activate (Some h)
          (gdk_wayland_seat_get_wl_seat (gdk_display_get_default_seat gdk_display_get_default))
        :: E_spawn ("niri msg action move-window-to-workspace " +:+ printf_d (n + 1))
        :: dispatch_report ("niri msg action move-window-to-workspace " +:+ printf_d (n + 1))).
Proof.
  intros Hp Hh Hn. unfold _niri_move_window_to_workspace.
  rewrite run_bind, (run_load_actor p a) by done. rewrite Hh.
  rewrite int_add_exact by (unfold INT_MIN, INT_MAX in *; lia).
  rewrite run_bind. unfold zwlr_foreign_toplevel_handle_v1_activate, emit.
  rewrite run_niri_ipc_action. reflexivity.
Qed.

(** C2.  Moving a window to the workspace with 0-based index [n]: for an
    actor with a non-null handle and every [int] [n] whose successor is an
    [int], the registered operation emits exactly one activate request on
    that handle, with the seat of the default display, then exactly one
    command, whose text is [niri msg action move-window-to-workspace]
    followed by the decimal digits of [n + 1], and after that nothing but
    the warning of a failed launch; memory is unchanged.  For [n = 2] the
    argument is [3]. *)
Theorem move_to_workspace_activates_then_dispatches
    (w : world) (p : actor_ptr) (a : GldiWaylandWindowActor) (h : wfthandle)
    (n x y : Z) :
  actors w !! p = Some a → handle a = Some h → INT_MIN ≤ n < INT_MAX →
  let seat :=
    gdk_wayland_seat_get_wl_seat (gdk_display_get_default_seat gdk_display_get_default) in
  let command := "niri msg action move-window-to-workspace " +:+ printf_d (n + 1) in
  _move_to_nth_desktop (Some p) n x y w =
    Some (tt, w, Req_activate (Some h) seat :: E_spawn command :: dispatch_report command)
  ∧ (∀ e, e ∈ dispatch_report command → ∃ text, e = E_warning text)
  ∧ (n = 2 → command = "niri msg action move-window-to-workspace 3").
Proof.
  intros Hp Hh Hn seat command. split; [|split].
  - unfold _move_to_nth_desktop. by apply (run_niri_move_window_to_workspace w p a).
  - apply dispatch_report_warnings.
  - intros ->. reflexivity.
Qed.

(** C9.  With a null actor, or an actor whose handle is null,
    [_niri_move_window_to_workspace] returns at once: it emits no activate
    request and no command, and memory is unchanged. *)
Theorem move_to_workspace_without_handle_is_noop
    (w : world) (wactor : option actor_ptr) (n : Z) :
  wactor = None
  ∨ (∃ p a, wactor = Some p ∧ actors w !! p = Some a ∧ handle a = None) →
  _niri_move_window_to_workspace wactor n w = Some (tt, w, []).
Proof.
  intros [-> | (p & a & -> & Hp & Hh)]; [reflexivity|].
  unfold _niri_move_window_to_workspace.
  rewrite run_bind, (run_load_actor p a) by done. by rewrite Hh.
Qed.

(** C10.  The [x] and [y] arguments of [_move_to_nth_desktop] have no
    influence: two calls that differ in them only have the same outcome,
    effects and memory alike. *)
Theorem move_to_nth_desktop_ignores_position
    (w : world) (actor : option actor_ptr) (n x y x' y' : Z) :
  _move_to_nth_desktop actor n x y w = _move_to_nth_desktop actor n x' y' w.
Proof. reflexivity. Qed.

(** *** The thumbnail region *)

(** C6.  [_set_thumbnail_area] emits nothing and leaves memory alone when
    the actor is null, the container is null, the container has no GDK
    window, or that window has no Wayland surface.  Otherwise it emits
    exactly one set-rectangle request, on the handle of the actor, with the
    surface found and the [x], [y], [w], [h] it was given. *)
Theorem set_thumbnail_area_requests
    (w : world) (actor : option actor_ptr) (pContainer : option GldiContainer)
    (x y wd ht : Z) :
  (actor = None
   ∨ pContainer = None
   ∨ (∃ c, pContainer = Some c ∧ gldi_container_get_gdk_window c = None)
   ∨ (∃ c window, pContainer = Some c
        ∧ gldi_container_get_gdk_window c = Some window
        ∧ gdk_wayland_window_get_wl_surface window = None) →
   _set_thumbnail_area actor pContainer x y wd ht w = Some (tt, w, []))
  ∧ (∀ p a c window surface,
       actor = Some p → actors w !! p = Some a →
       pContainer = Some c →
       gldi_container_get_gdk_window c = Some window →
       gdk_wayland_window_get_wl_surface window = Some surface →
       _set_thumbnail_area actor pContainer x y wd ht w =
         Some (tt, w, [Req_set_rectangle (handle a) surface x y wd ht])).
Proof.
  split.
  - intros [-> | [-> | [(c & -> & Hc) | (c & window & -> & Hc & Hs)]]].
    + reflexivity.
    + by destruct actor.
    + unfold _set_thumbnail_area. rewrite Hc. by destruct actor.
    + unfold _set_thumbnail_area. rewrite Hc, Hs. by destruct actor.
  - intros p a c window surface -> Hp -> Hc Hs.
    unfold _set_thumbnail_area. rewrite Hc, Hs.
    rewrite run_bind, (run_load_actor p a) by done. reflexivity.
Qed.

(** *** What the backend can do *)

(** C7.  For every actor, [_can_minimize_maximize_close] answers [TRUE]
    three times into the variables it is given, and has a result only when
    all three pointers are non-null.  [_get_supported_actions] writes
    [TRUE] for fullscreen and [FALSE] for sticky, below, above and kill,
    each into its variable when the pointer is non-null, and writes nothing
    for a null pointer. *)
Theorem capability_queries (actor : option actor_ptr) :
  (∀ m x c : gboolean,
     _can_minimize_maximize_close actor (Some m) (Some x) (Some c) =
       Some (Some TRUE, Some TRUE, Some TRUE))
  ∧ (∀ pm px pc : option gboolean,
       _can_minimize_maximize_close actor pm px pc =
         if non_null pm && non_null px && non_null pc
         then Some (Some TRUE, Some TRUE, Some TRUE) else None)
  ∧ (∀ f s b a k : gboolean,
       _get_supported_actions (Some f) (Some s) (Some b) (Some a) (Some k) =
         Some (Some TRUE, Some FALSE, Some FALSE, Some FALSE, Some FALSE))
  ∧ (∀ pf ps pb pa pk : option gboolean,
       _get_supported_actions pf ps pb pa pk =
         Some ((λ _, TRUE) <$> pf, (λ _, FALSE) <$> ps, (λ _, FALSE) <$> pb,
               (λ _, FALSE) <$> pa, (λ _, FALSE) <$> pk)).
Proof.
  repeat split.
  - intros [?|] [?|] [?|]; reflexivity.
  - intros [?|] [?|] [?|] [?|] [?|]; reflexivity.
Qed.

(** *** State events *)

Lemma state_labels_distinct :
  NoDup state_labels →
  ZWLR_FOREIGN_TOPLEVEL_HANDLE_V1_STATE_ACTIVATED ≠ ZWLR_FOREIGN_TOPLEVEL_HANDLE_V1_STATE_MAXIMIZED
  ∧ ZWLR_FOREIGN_TOPLEVEL_HANDLE_V1_STATE_ACTIVATED ≠ ZWLR_FOREIGN_TOPLEVEL_HANDLE_V1_STATE_MINIMIZED
  ∧ ZWLR_FOREIGN_TOPLEVEL_HANDLE_V1_STATE_ACTIVATED ≠ ZWLR_FOREIGN_TOPLEVEL_HANDLE_V1_STATE_FULLSCREEN
  ∧ ZWLR_FOREIGN_TOPLEVEL_HANDLE_V1_STATE_MAXIMIZED ≠ ZWLR_FOREIGN_TOPLEVEL_HANDLE_V1_STATE_MINIMIZED
  ∧ ZWLR_FOREIGN_TOPLEVEL_HANDLE_V1_STATE_MAXIMIZED ≠ ZWLR_FOREIGN_TOPLEVEL_HANDLE_V1_STATE_FULLSCREEN
  ∧ ZWLR_FOREIGN_TOPLEVEL_HANDLE_V1_STATE_MINIMIZED ≠ ZWLR_FOREIGN_TOPLEVEL_HANDLE_V1_STATE_FULLSCREEN.
Proof.
  unfold state_labels. rewrite !NoDup_cons, !not_elem_of_cons. tauto.
Qed.

(** One turn of the loop switches on the local of the entry it reads, if
    the entry is one of the four, and leaves the other locals alone. *)
Lemma state_switch_spec (v : N) (a x m f : gboolean) :
  NoDup state_labels →
  state_switch v (a, x, m, f) =
    (a || bool_decide (v = ZWLR_FOREIGN_TOPLEVEL_HANDLE_V1_STATE_ACTIVATED),
     x || bool_decide (v = ZWLR_FOREIGN_TOPLEVEL_HANDLE_V1_STATE_MAXIMIZED),
     m || bool_decide (v = ZWLR_FOREIGN_TOPLEVEL_HANDLE_V1_STATE_MINIMIZED),
     f || bool_decide (v = ZWLR_FOREIGN_TOPLEVEL_HANDLE_V1_STATE_FULLSCREEN)).
Proof.
  intros Hd. apply state_labels_distinct in Hd.
  destruct Hd as (H1 & H2 & H3 & H4 & H5 & H6).
  unfold state_switch.
  repeat match goal with
         | |- context [(v =? ?c)%N] => destruct (N.eqb_spec v c)
         end;
    subst; repeat case_bool_decide; try congruence;
    rewrite ?orb_true_r, ?orb_false_r; reflexivity.
Qed.

Lemma state_loop_spec (stdata : list N) (a x m f : gboolean) :
  NoDup state_labels →
  state_loop stdata (a, x, m, f) =
    (a || bool_decide (ZWLR_FOREIGN_TOPLEVEL_HANDLE_V1_STATE_ACTIVATED ∈ stdata),
     x || bool_decide (ZWLR_FOREIGN_TOPLEVEL_HANDLE_V1_STATE_MAXIMIZED ∈ stdata),
     m || bool_decide (ZWLR_FOREIGN_TOPLEVEL_HANDLE_V1_STATE_MINIMIZED ∈ stdata),
     f || bool_decide (ZWLR_FOREIGN_TOPLEVEL_HANDLE_V1_STATE_FULLSCREEN ∈ stdata)).
Proof.
  intros Hd. revert a x m f.
  induction stdata as [|v stdata IH]; intros a x m f; cbn [state_loop].
  - rewrite !bool_decide_eq_false_2 by apply not_elem_of_nil.
    by rewrite !orb_false_r.
  - rewrite state_switch_spec, IH by done.
    rewrite <- !orb_assoc.
    repeat f_equal; apply eq_true_iff_eq;
      rewrite !orb_true_iff, !bool_decide_eq_true, elem_of_cons;
      split; intros [?|?]; auto.
Qed.

Lemma set_actors_insert_twice (p : actor_ptr) (a b : GldiWaylandWindowActor) (w : world) :
  set_actors <[p := b]> (set_actors <[p := a]> w) = set_actors <[p := b]> w.
Proof. unfold set_actors; cbn. by rewrite insert_insert_eq. Qed.

Lemma lookup_set_actors_insert (p : actor_ptr) (a : GldiWaylandWindowActor) (w : world) :
  actors (set_actors <[p := a]> w) !! p = Some a.
Proof. cbn. apply lookup_insert_eq. Qed.

Lemma run_wm_activated (w : world) (p : actor_ptr) (a : GldiWaylandWindowActor)
    (v notify : gboolean) :
  actors w !! p = Some a →
  gldi_wayland_wm_activated p v notify w =
    Some (tt, set_actors <[p := set_activated v a]> w, [E_wm_activated p v notify]).
Proof.
  intros Hp. unfold gldi_wayland_wm_activated, emit.
  by rewrite run_bind, (run_store_actor p a).
Qed.

Lemma run_wm_maximized_changed (w : world) (p : actor_ptr) (a : GldiWaylandWindowActor)
    (v notify : gboolean) :
  actors w !! p = Some a →
  gldi_wayland_wm_maximized_changed p v notify w =
    Some (tt, set_actors <[p := set_maximized v a]> w,
          [E_wm_maximized_changed p v notify]).
Proof.
  intros Hp. unfold gldi_wayland_wm_maximized_changed, emit.
  by rewrite run_bind, (run_store_actor p a).
Qed.

Lemma run_wm_minimized_changed (w : world) (p : actor_ptr) (a : GldiWaylandWindowActor)
    (v notify : gboolean) :
  actors w !! p = Some a →
  gldi_wayland_wm_minimized_changed p v notify w =
    Some (tt, set_actors <[p := set_minimized v a]> w,
          [E_wm_minimized_changed p v notify]).
Proof.
  intros Hp. unfold gldi_wayland_wm_minimized_changed, emit.
  by rewrite run_bind, (run_store_actor p a).
Qed.

Lemma run_wm_fullscreen_changed (w : world) (p : actor_ptr) (a : GldiWaylandWindowActor)
    (v notify : gboolean) :
  actors w !! p = Some a →
  gldi_wayland_wm_fullscreen_changed p v notify w =
    Some (tt, set_actors <[p := set_fullscreen v a]> w,
          [E_wm_fullscreen_changed p v notify]).
Proof.
  intros Hp. unfold gldi_wayland_wm_fullscreen_changed, emit.
  by rewrite run_bind, (run_store_actor p a).
Qed.

Lemma run_toplevel_state_cb
    (w : world) (p : actor_ptr) (a : GldiWaylandWindowActor) (h : wfthandle)
    (state : list N) :
  actors w !! p = Some a →
  _toplevel_state_cb (Some p) h state w =
    Some (tt,
          set_actors <[p := with_state (state_loop state (FALSE, FALSE, FALSE, FALSE)) a]> w,
          state_calls p (state_loop state (FALSE, FALSE, FALSE, FALSE))).
Proof.
  intros Hp. unfold _toplevel_state_cb, with_state, state_calls.
  destruct (state_loop state _) as [[[act mx] mn] fs].
  rewrite run_bind, (run_wm_activated w p a) by done.
  rewrite run_bind,
    (run_wm_maximized_changed _ p _ _ _ (lookup_set_actors_insert _ _ _)),
    set_actors_insert_twice.
  rewrite run_bind,
    (run_wm_minimized_changed _ p _ _ _ (lookup_set_actors_insert _ _ _)),
    set_actors_insert_twice.
  rewrite (run_wm_fullscreen_changed _ p _ _ _ (lookup_set_actors_insert _ _ _)),
    set_actors_insert_twice.
  reflexivity.
Qed.

Lemma run_deliver_states
    (events : list (list N)) (w : world) (p : actor_ptr)
    (a : GldiWaylandWindowActor) (h : wfthandle) :
  actors w !! p = Some a →
  ∃ a' out,
    deliver_states (Some p) h events w = Some (tt, set_actors <[p := a']> w, out).
Proof.
  revert w a. induction events as [|state events IH]; intros w a Hp.
  - exists a, []. cbn. unfold set_actors. rewrite insert_id by done. by destruct w.
  - cbn [deliver_states]. rewrite run_bind, (run_toplevel_state_cb w p a) by done.
    destruct (IH _ _ (lookup_set_actors_insert p
                        (with_state (state_loop state (FALSE, FALSE, FALSE, FALSE)) a) w))
      as (a' & out & ->).
    exists a'. eexists. by rewrite set_actors_insert_twice.
Qed.

Lemma deliver_states_app
    (earlier later : list (list N)) (data : option actor_ptr) (h : wfthandle)
    (w : world) :
  deliver_states data h (earlier ++ later) w =
    (deliver_states data h earlier;; deliver_states data h later) w.
Proof.
  revert w. induction earlier as [|state earlier IH]; intros w.
  - cbn [app deliver_states]. rewrite run_bind, run_ret.
    by destruct (deliver_states data h later w) as [[[[] ?] ?]|].
  - cbn [app deliver_states]. rewrite !run_bind.
    destruct (_toplevel_state_cb data h state w) as [[[[] w1] out1]|]; [|done].
    rewrite IH, run_bind.
    destruct (deliver_states data h earlier w1) as [[[[] w2] out2]|]; [|done].
    destruct (deliver_states data h later w2) as [[[[] w3] out3]|]; [|done].
    by rewrite app_assoc.
Qed.

(** C1.  After any sequence of state events on one handle, the four
    booleans of its window actor are exactly the flags of the last event:
    a boolean is true when its flag is in the array of that event and false
    when it is not, whatever the earlier events were.  They are also the
    values of the four calls the last event ends with, one per boolean and
    each with [FALSE] for immediate notification. *)
Theorem state_event_overwrites
    (w : world) (p : actor_ptr) (a : GldiWaylandWindowActor) (h : wfthandle)
    (earlier : list (list N)) (state : list N) :
  NoDup state_labels →
  actors w !! p = Some a →
  let act := bool_decide (ZWLR_FOREIGN_TOPLEVEL_HANDLE_V1_STATE_ACTIVATED ∈ state) in
  let mx := bool_decide (ZWLR_FOREIGN_TOPLEVEL_HANDLE_V1_STATE_MAXIMIZED ∈ state) in
  let mn := bool_decide (ZWLR_FOREIGN_TOPLEVEL_HANDLE_V1_STATE_MINIMIZED ∈ state) in
  let fs := bool_decide (ZWLR_FOREIGN_TOPLEVEL_HANDLE_V1_STATE_FULLSCREEN ∈ state) in
  ∃ w' a' before,
    deliver_states (Some p) h (earlier ++ [state]) w =
      Some (tt, w',
            before ++ [E_wm_activated p act FALSE;
                       E_wm_maximized_changed p mx FALSE;
                       E_wm_minimized_changed p mn FALSE;
                       E_wm_fullscreen_changed p fs FALSE])
    ∧ actors w' !! p = Some a'
    ∧ activated a' = act
    ∧ maximized a' = mx
    ∧ minimized a' = mn
    ∧ fullscreen a' = fs.
Proof.
  intros Hd Hp act mx mn fs.
  destruct (run_deliver_states earlier w p a h Hp) as (a1 & out1 & Hrun).
  rewrite deliver_states_app, run_bind, Hrun. cbn [deliver_states].
  rewrite run_bind, (run_toplevel_state_cb _ p a1) by apply lookup_set_actors_insert.
  rewrite set_actors_insert_twice, run_ret, app_nil_r.
  rewrite state_loop_spec by done. cbn [orb state_calls with_state].
  eexists _, _, out1. split; [reflexivity|]. split; [apply lookup_set_actors_insert|].
  done.
Qed.

(** *** New toplevels *)

Lemma fresh_actor_unused (w : world) : actors w !! fresh (dom (actors w)) = None.
Proof. apply not_elem_of_dom, is_fresh. Qed.

Lemma run_toplevel_before_listener (w : world) (handle : wfthandle) :
  toplevel_before_listener handle w =
    Some (fresh (dom (actors w)),
          set_actors <[fresh (dom (actors w)) := seeded_actor handle]>
            (set_user_data <[handle := fresh (dom (actors w))]> w),
          [E_wm_new_toplevel handle]).
Proof.
  unfold toplevel_before_listener, gldi_wayland_wm_new_toplevel,
    zwlr_foreign_toplevel_handle_v1_set_user_data, modify_world.
  rewrite run_bind. cbv zeta. rewrite run_bind.
  set (p := fresh (dom (actors w))).
  repeat (rewrite run_bind;
          erewrite (run_store_actor p) by (cbn; apply lookup_insert_eq)).
  rewrite run_ret.
  unfold set_actors, set_user_data, set_listeners; cbn.
  rewrite !insert_insert_eq. reflexivity.
Qed.

Lemma run_toplevel_manager_toplevel (w : world) (handle : wfthandle) :
  _toplevel_manager_toplevel handle w =
    (wactor ← toplevel_before_listener handle;
     zwlr_foreign_toplevel_handle_v1_add_listener handle wactor) w.
Proof.
  rewrite run_bind, run_toplevel_before_listener.
  unfold _toplevel_manager_toplevel, gldi_wayland_wm_new_toplevel,
    zwlr_foreign_toplevel_handle_v1_set_user_data,
    zwlr_foreign_toplevel_handle_v1_add_listener, modify_world.
  rewrite run_bind. cbv zeta. rewrite run_bind.
  set (p := fresh (dom (actors w))).
  repeat (rewrite run_bind;
          erewrite (run_store_actor p) by (cbn; apply lookup_insert_eq)).
  unfold set_actors, set_user_data, set_listeners; cbn.
  rewrite !insert_insert_eq.
  reflexivity.
Qed.

(** C4.  A new-toplevel event allocates an actor at an address that was
    unused.  On reaching the statement that subscribes to the handle, the
    last of the function, that actor already has [GLDI_DESKTOP_ALL] as its
    desktop, width 1 and height 1, and the screen centre as its x and y,
    and the set of subscribed handles is still the one before the event;
    the subscription is all that follows, and it leaves the actors as they
    are. *)
Theorem new_toplevel_seeds_shadow (w : world) (handle : wfthandle) :
  ∃ (wactor : actor_ptr) (a : GldiWaylandWindowActor) (w1 w2 : world),
    toplevel_before_listener handle w = Some (wactor, w1, [E_wm_new_toplevel handle])
    ∧ actors w !! wactor = None
    ∧ actors w1 !! wactor = Some a
    ∧ iNumDesktop a = GLDI_DESKTOP_ALL
    ∧ geo_width (windowGeometry a) = 1
    ∧ geo_height (windowGeometry a) = 1
    ∧ geo_x (windowGeometry a) = cairo_dock_get_screen_width 0 `quot` 2
    ∧ geo_y (windowGeometry a) = cairo_dock_get_screen_height 0 `quot` 2
    ∧ listeners w1 = listeners w
    ∧ _toplevel_manager_toplevel handle w = Some (tt, w2, [E_wm_new_toplevel handle])
    ∧ w2 = set_listeners <[handle := wactor]> w1
    ∧ actors w2 = actors w1
    ∧ listeners w2 = <[handle := wactor]> (listeners w).
Proof.
  eexists _, (seeded_actor handle), _, _.
  split; [apply run_toplevel_before_listener|].
  split; [apply fresh_actor_unused|].
  split; [apply lookup_set_actors_insert|].
  do 6 (split; [reflexivity|]).
  rewrite run_toplevel_manager_toplevel, run_bind, run_toplevel_before_listener.
  repeat split.
Qed.

(** *** Registry advertisements *)

Lemma set_globals_same (w : world) : set_globals (λ _, globals w) w = w.
Proof. by destruct w. Qed.

Lemma set_globals_twice (f g : statics → statics) (w : world) :
  set_globals f (set_globals g w) = set_globals (λ s, f (g s)) w.
Proof. reflexivity. Qed.

Lemma MIN_min (a b : N) : MIN a b = N.min a b.
Proof. unfold MIN. destruct (N.ltb_spec a b); lia. Qed.

Lemma run_match_protocol (id : N) (interface : string) (ver : N) (w : world) :
  gldi_niri_toplevel_match_protocol id interface ver w =
    Some (String.eqb interface (name zwlr_foreign_toplevel_manager_v1_interface)
          || String.eqb interface (name ext_workspace_manager_v1_interface),
          set_globals (λ _, recorded id interface ver (globals w)) w, []).
Proof.
  unfold gldi_niri_toplevel_match_protocol, recorded.
  destruct (String.eqb interface (name zwlr_foreign_toplevel_manager_v1_interface));
    [reflexivity|].
  destruct (String.eqb interface (name ext_workspace_manager_v1_interface));
    [reflexivity|].
  by rewrite set_globals_same.
Qed.

Lemma run_registry_scan (ads : list (N * string * N)) (w : world) :
  registry_scan ads w =
    Some (tt, set_globals (λ _, scanned ads (globals w)) w, []).
Proof.
  revert w. induction ads as [|[[id interface] ver] ads IH]; intros w.
  - cbn. by rewrite set_globals_same.
  - cbn [registry_scan]. rewrite run_bind, run_match_protocol, IH. reflexivity.
Qed.

Lemma scanned_cons (ad : N * string * N) (ads : list (N * string * N)) (g : statics) :
  scanned (ad :: ads) g = scanned ads (recorded ad.1.1 ad.1.2 ad.2 g).
Proof. reflexivity. Qed.

(** A scan touches nothing but the six statics of the two records. *)
Lemma recorded_managers (id : N) (interface : string) (ver : N) (g : statics) :
  s_ptoplevel_manager (recorded id interface ver g) = s_ptoplevel_manager g
  ∧ s_pworkspace_manager (recorded id interface ver g) = s_pworkspace_manager g.
Proof. unfold recorded. by repeat case_match. Qed.

Lemma scanned_managers (ads : list (N * string * N)) (g : statics) :
  s_ptoplevel_manager (scanned ads g) = s_ptoplevel_manager g
  ∧ s_pworkspace_manager (scanned ads g) = s_pworkspace_manager g.
Proof.
  revert g. induction ads as [|ad ads IH]; intros g; [done|].
  rewrite scanned_cons. destruct (IH (recorded ad.1.1 ad.1.2 ad.2 g)) as [-> ->].
  apply recorded_managers.
Qed.

Lemma scanned_toplevel_found (ads : list (N * string * N)) (g : statics) :
  toplevel_found (scanned ads g) = TRUE ↔
    toplevel_found g = TRUE
    ∨ advertised zwlr_foreign_toplevel_manager_v1_interface ads.
Proof.
  unfold advertised. revert g.
  induction ads as [|[[id interface] ver] ads IH]; intros g.
  - rewrite Exists_nil. cbn. tauto.
  - rewrite scanned_cons, IH, Exists_cons. cbn [fst snd]. unfold recorded.
    destruct (String.eqb_spec interface (name zwlr_foreign_toplevel_manager_v1_interface))
      as [->|Hne].
    + cbn. tauto.
    + assert (toplevel_found
                (if String.eqb interface (name ext_workspace_manager_v1_interface)
                 then set_workspace_ver ver (set_workspace_id id (set_workspace_found TRUE g))
                 else g) = toplevel_found g) as -> by (by case_match).
      tauto.
Qed.

Lemma scanned_workspace_found (ads : list (N * string * N)) (g : statics) :
  ¬ advertised ext_workspace_manager_v1_interface ads →
  workspace_found (scanned ads g) = workspace_found g.
Proof.
  unfold advertised. revert g.
  induction ads as [|[[id interface] ver] ads IH]; intros g Hno; [done|].
  rewrite Exists_cons in Hno. cbn [fst snd] in Hno.
  rewrite scanned_cons, IH by tauto. cbn [fst snd]. unfold recorded.
  destruct (String.eqb_spec interface (name zwlr_foreign_toplevel_manager_v1_interface));
    [done|].
  destruct (String.eqb_spec interface (name ext_workspace_manager_v1_interface));
    [tauto|done].
Qed.

(** *** Initialization *)

Lemma run_try_init_not_found (registry : wl_registry) (w : world) :
  toplevel_found (globals w) = FALSE →
  gldi_niri_toplevel_try_init registry w = Some (FALSE, w, []).
Proof.
  intros Hf. unfold gldi_niri_toplevel_try_init.
  rewrite run_bind. unfold get_globals. rewrite Hf. reflexivity.
Qed.

Lemma run_try_init_found (registry : wl_registry) (w : world) :
  toplevel_found (globals w) = TRUE →
  gldi_niri_toplevel_try_init registry w =
    let g := bound_workspace registry (bound_toplevel registry (globals w)) in
    Some ((registration g).1, set_globals (λ _, g) w,
          bind_requests registry (globals w) ++ (registration g).2).
Proof.
  intros Hf. unfold gldi_niri_toplevel_try_init.
  rewrite run_bind. unfold get_globals at 1. rewrite Hf. cbn [negb].
  unfold bound_workspace, bound_toplevel, bind_requests, registration,
    wl_registry_bind, cd_message, niri_backend.
  destruct w as [g ac ud li]. cbn [globals] in *.
  unfold mbind, M_bind, mret, M_ret, assign, modify_world, get_globals, emit.
  destruct (workspace_found g) eqn:Hw; cbn; rewrite ?Hw; cbn.
  - destruct (bind_outcome registry (toplevel_id g) _ _) as [tm|]; [|reflexivity].
    destruct (bind_outcome registry (workspace_id g) _ _) as [wm|]; reflexivity.
  - destruct (bind_outcome registry (toplevel_id g) _ _) as [tm|]; [|reflexivity].
    destruct (s_pworkspace_manager g); reflexivity.
Qed.

Lemma try_init_registers_niri_backend
    (registry : wl_registry) (w w2 : world) (r : gboolean) (out : list effect)
    (wmb : GldiWindowManagerBackend) :
  gldi_niri_toplevel_try_init registry w = Some (r, w2, out) →
  E_register_backend wmb ∈ out →
  ∃ flags, wmb = niri_backend flags.
Proof.
  destruct (toplevel_found (globals w)) eqn:Hf.
  - rewrite run_try_init_found by done. cbv zeta. intros [= _ _ <-].
    unfold bind_requests, registration.
    destruct (s_ptoplevel_manager _); cbn [fst snd];
      destruct (workspace_found _); try destruct (s_pworkspace_manager _);
      cbn; rewrite ?elem_of_cons, ?elem_of_nil; intros Hin;
      repeat (destruct Hin as [Hin|Hin]; [try discriminate|]); try done;
      injection Hin as ->; eauto.
  - rewrite run_try_init_not_found by done. intros [= _ _ <-] Hin.
    by apply elem_of_nil in Hin.
Qed.

Lemma land_lor_same_l (a b : Z) : Z.land (Z.lor a b) a = a.
Proof.
  apply Z.bits_inj'. intros n _. rewrite Z.land_spec, Z.lor_spec.
  by destruct (Z.testbit a n), (Z.testbit b n).
Qed.

Lemma land_lor_same_r (a b : Z) : Z.land (Z.lor a b) b = b.
Proof. rewrite Z.lor_comm. apply land_lor_same_l. Qed.

(** C3.  When no advertisement of a registry scan names the toplevel
    management protocol, and none was recorded before, the scan records
    none, and [gldi_niri_toplevel_try_init] then returns [FALSE] without
    any effect: no bind, no listener, no backend registered, memory
    unchanged. *)
Theorem try_init_fails_without_toplevel
    (w : world) (ads : list (N * string * N)) (registry : wl_registry) :
  toplevel_found (globals w) = FALSE →
  ¬ advertised zwlr_foreign_toplevel_manager_v1_interface ads →
  ∃ w1,
    registry_scan ads w = Some (tt, w1, [])
    ∧ toplevel_found (globals w1) = FALSE
    ∧ gldi_niri_toplevel_try_init registry w1 = Some (FALSE, w1, []).
Proof.
  intros Hf Hno. eexists. split; [apply run_registry_scan|].
  assert (toplevel_found (scanned ads (globals w)) = FALSE) as Hf'.
  { apply not_true_is_false. rewrite scanned_toplevel_found.
    intros [?|?]; [congruence|done]. }
  split; [done|]. by apply run_try_init_not_found.
Qed.

(** C5.  From the initial statics, after a scan that advertises the
    toplevel protocol and never the workspace protocol, if the bind of the
    toplevel manager yields a proxy then [gldi_niri_toplevel_try_init]
    returns [TRUE].  Its effects are that one bind, the subscription to the
    manager, the registration of one descriptor, the start of the generic
    helper and a message: nothing is handed to the workspace helper.  The
    descriptor has every bit of the two viewport flags and, those having no
    bit in common with [GLDI_WM_HAVE_WORKSPACES], no bit of that one.  Its
    operations are those of every descriptor the function registers, in
    any memory and so with workspaces too. *)
Theorem try_init_without_workspaces
    (w w1 : world) (ads : list (N * string * N)) (registry : wl_registry)
    (manager : wl_proxy) :
  globals w = initial_statics →
  advertised zwlr_foreign_toplevel_manager_v1_interface ads →
  ¬ advertised ext_workspace_manager_v1_interface ads →
  registry_scan ads w = Some (tt, w1, []) →
  bind_outcome registry (toplevel_id (globals w1))
    zwlr_foreign_toplevel_manager_v1_interface
    (N.min (toplevel_ver (globals w1))
       (version zwlr_foreign_toplevel_manager_v1_interface)) = Some manager →
  Z.land GLDI_WM_NO_VIEWPORT_OVERLAP GLDI_WM_HAVE_WORKSPACES = 0 →
  Z.land GLDI_WM_GEOM_REL_TO_VIEWPORT GLDI_WM_HAVE_WORKSPACES = 0 →
  ∃ w2 wmb,
    gldi_niri_toplevel_try_init registry w1 =
      Some (TRUE, w2,
            [Req_bind registry (toplevel_id (globals w1))
               zwlr_foreign_toplevel_manager_v1_interface
               (N.min (toplevel_ver (globals w1))
                  (version zwlr_foreign_toplevel_manager_v1_interface));
             E_manager_add_listener manager;
             E_register_backend wmb;
             E_wayland_wm_init;
             E_message "Niri integration initialized successfully."])
    ∧ Z.land (wmb_flags wmb) GLDI_WM_HAVE_WORKSPACES = 0
    ∧ Z.land (wmb_flags wmb) GLDI_WM_NO_VIEWPORT_OVERLAP = GLDI_WM_NO_VIEWPORT_OVERLAP
    ∧ Z.land (wmb_flags wmb) GLDI_WM_GEOM_REL_TO_VIEWPORT = GLDI_WM_GEOM_REL_TO_VIEWPORT
    ∧ s_pworkspace_manager (globals w2) = None
    ∧ (∀ registry' w' r' w2' out' wmb',
         gldi_niri_toplevel_try_init registry' w' = Some (r', w2', out') →
         E_register_backend wmb' ∈ out' →
         wmb_operations wmb' = wmb_operations wmb).
Proof.
  intros Hinit Hadv Hno Hscan Hbind Hd1 Hd2.
  rewrite run_registry_scan in Hscan. injection Hscan as <-.
  cbn [globals set_globals] in *.
  set (g := scanned ads (globals w)) in *.
  assert (toplevel_found g = TRUE) as Hf
    by (apply scanned_toplevel_found; by right).
  assert (workspace_found g = FALSE) as Hw
    by (unfold g; rewrite scanned_workspace_found, Hinit; done).
  assert (s_pworkspace_manager g = None) as Hm
    by (unfold g; rewrite (proj2 (scanned_managers _ _)), Hinit; done).
  rewrite <- MIN_min in *.
  rewrite run_try_init_found by done. cbv zeta. cbn [globals set_globals].
  unfold bind_requests, registration, bound_workspace, bound_toplevel.
  cbn. rewrite Hw, Hbind. cbn. rewrite Hm. cbn.
  eexists _, _. split; [reflexivity|]. cbn.
  split; [by rewrite Z.land_lor_distr_l, Hd1, Hd2|].
  split; [apply land_lor_same_l|].
  split; [apply land_lor_same_r|].
  split; [done|].
  intros registry' w' r' w2' out' wmb' Hrun Hin.
  by destruct (try_init_registers_niri_backend _ _ _ _ _ _ Hrun Hin) as [flags ->].
Qed.

(** C8, as the code has it.  For every advertisement,
    [gldi_niri_toplevel_match_protocol] compares the name with the two
    interface names, the toplevel one first, returns [TRUE] exactly when
    one of them is equal, and records, for the protocol that matched, the
    found flag, the id and the version as advertised; when none matched
    nothing changes.  It emits nothing.  The minimum with the version the
    client supports is taken by [gldi_niri_toplevel_try_init], which
    stores it and binds with it. *)
Theorem match_records_then_init_clamps
    (w : world) (id : N) (interface : string) (ver : N) (registry : wl_registry) :
  ∃ w1,
    gldi_niri_toplevel_match_protocol id interface ver w =
      Some (bool_decide (interface = name zwlr_foreign_toplevel_manager_v1_interface
                         ∨ interface = name ext_workspace_manager_v1_interface),
            w1, [])
    ∧ actors w1 = actors w ∧ user_data w1 = user_data w ∧ listeners w1 = listeners w
    ∧ (interface = name zwlr_foreign_toplevel_manager_v1_interface →
       globals w1 =
         set_toplevel_ver ver (set_toplevel_id id (set_toplevel_found TRUE (globals w)))
       ∧ ∃ r w2 out,
           gldi_niri_toplevel_try_init registry w1 =
             Some (r, w2,
                   Req_bind registry id zwlr_foreign_toplevel_manager_v1_interface
                     (N.min ver (version zwlr_foreign_toplevel_manager_v1_interface))
                   :: out)
           ∧ toplevel_ver (globals w2) =
               N.min ver (version zwlr_foreign_toplevel_manager_v1_interface))
    ∧ (interface ≠ name zwlr_foreign_toplevel_manager_v1_interface →
       interface = name ext_workspace_manager_v1_interface →
       globals w1 =
         set_workspace_ver ver (set_workspace_id id (set_workspace_found TRUE (globals w)))
       ∧ (toplevel_found (globals w) = TRUE →
          ∃ r w2 out,
            gldi_niri_toplevel_try_init registry w1 = Some (r, w2, out)
            ∧ Req_bind registry id ext_workspace_manager_v1_interface
                (N.min ver (version ext_workspace_manager_v1_interface)) ∈ out
            ∧ workspace_ver (globals w2) =
                N.min ver (version ext_workspace_manager_v1_interface)))
    ∧ (interface ≠ name zwlr_foreign_toplevel_manager_v1_interface →
       interface ≠ name ext_workspace_manager_v1_interface →
       w1 = w).
Proof.
  eexists. rewrite run_match_protocol. split.
  { do 3 f_equal. apply eq_true_iff_eq.
    rewrite orb_true_iff, bool_decide_eq_true, !String.eqb_eq. done. }
  do 3 (split; [reflexivity|]).
  cbn [globals set_globals]. unfold recorded.
  destruct (String.eqb_spec interface (name zwlr_foreign_toplevel_manager_v1_interface))
    as [->|Hne1]; [|destruct (String.eqb_spec interface
                                (name ext_workspace_manager_v1_interface)) as [->|Hne2]].
  - split; [|split; done]. intros _. split; [reflexivity|].
    rewrite run_try_init_found by reflexivity. cbv zeta.
    rewrite <- MIN_min. unfold bind_requests. cbn.
    eexists _, _, _. split; [reflexivity|].
    unfold bound_workspace, bound_toplevel. by case_match.
  - split; [done|]. split; [|done]. intros _ _. split; [reflexivity|].
    intros Hf. rewrite run_try_init_found by (cbn; done). cbv zeta.
    rewrite <- MIN_min.
    eexists _, _, _. split; [reflexivity|].
    unfold bound_workspace, bound_toplevel, bind_requests. cbn. split; [|reflexivity].
    apply elem_of_cons. right. apply elem_of_cons. by left.
  - split; [done|]. split; [done|]. intros _ _. apply set_globals_same.
Qed.

End Facts.

(** ** The properties at work *)

Lemma move_to_workspace_activates_then_dispatches_witness :
  @_move_to_nth_desktop example_host (Some 1%positive) 2 40 50 example_world =
    Some (tt, example_world,
          [Req_activate (Some 7%positive) (Some 3%positive);
           E_spawn "niri msg action move-window-to-workspace 3"]).
Proof.
  pose proof (@move_to_workspace_activates_then_dispatches example_host
                example_world 1%positive example_actor 7%positive 2 40 50)
    as Hmove.
  cbv zeta in Hmove.
  destruct Hmove as [Hrun _]; [reflexivity | reflexivity | vm_compute; split; congruence |].
  exact Hrun.
Defined.

Lemma move_to_workspace_without_handle_is_noop_witness :
  @_niri_move_window_to_workspace example_host (Some 2%positive) 2 example_world =
    Some (tt, example_world, []).
Proof.
  apply (@move_to_workspace_without_handle_is_noop example_host).
  right. exists 2%positive, example_orphan. repeat split; reflexivity.
Defined.

Lemma set_thumbnail_area_requests_witness :
  @_set_thumbnail_area example_host (Some 1%positive) (Some 9%positive) 4 5 64 48
      example_world = Some (tt, example_world, [])
  ∧ @_set_thumbnail_area example_host (Some 1%positive) (Some 8%positive) 4 5 64 48
      example_world = Some (tt, example_world, [])
  ∧ @_set_thumbnail_area example_host (Some 1%positive) (Some 3%positive) 4 5 64 48
      example_world =
      Some (tt, example_world,
            [Req_set_rectangle (Some 7%positive) 23%positive 4 5 64 48]).
Proof.
  split; [|split].
  - apply (@set_thumbnail_area_requests example_host).
    right; right; left. by exists 9%positive.
  - apply (@set_thumbnail_area_requests example_host).
    right; right; right. by exists 8%positive, 18%positive.
  - by apply (proj2 (@set_thumbnail_area_requests example_host example_world
                       (Some 1%positive) (Some 3%positive) 4 5 64 48)
                1%positive example_actor 3%positive 13%positive 23%positive).
Defined.

Lemma state_event_overwrites_witness :
  ∃ w' a' before,
    @deliver_states example_host (Some 1%positive) 7%positive
      [[2; 0]; [2]]%N example_world =
      Some (tt, w',
            before ++ [E_wm_activated 1%positive TRUE FALSE;
                       E_wm_maximized_changed 1%positive FALSE FALSE;
                       E_wm_minimized_changed 1%positive FALSE FALSE;
                       E_wm_fullscreen_changed 1%positive FALSE FALSE])
    ∧ actors w' !! 1%positive = Some a'
    ∧ activated a' = TRUE ∧ maximized a' = FALSE
    ∧ minimized a' = FALSE ∧ fullscreen a' = FALSE.
Proof.
  destruct (@state_event_overwrites example_host example_world 1%positive
              example_actor 7%positive [[2; 0]]%N [2]%N)
    as (w' & a' & before & Hrun & Ha & Hact & Hmax & Hmin & Hfull).
  - apply (bool_decide_unpack _). vm_compute. exact I.
  - reflexivity.
  - exists w', a', before. repeat split; assumption.
Defined.

Lemma try_init_fails_without_toplevel_witness :
  ∃ w1,
    @registry_scan example_host
      [(12, "wl_compositor", 6); (15, "ext_workspace_manager_v1", 1)]%N
      example_world = Some (tt, w1, [])
    ∧ toplevel_found (globals w1) = FALSE
    ∧ @gldi_niri_toplevel_try_init example_host 1%positive w1 = Some (FALSE, w1, []).
Proof.
  apply (@try_init_fails_without_toplevel example_host).
  - reflexivity.
  - apply (bool_decide_unpack _). vm_compute. exact I.
Defined.

Lemma try_init_without_workspaces_witness :
  ∃ w2 wmb,
    @gldi_niri_toplevel_try_init example_host 1%positive
      {| globals := @scanned example_host
                      [(12, "wl_compositor", 6);
                       (40, "zwlr_foreign_toplevel_manager_v1", 5)]%N initial_statics;
         actors := actors example_world;
         user_data := user_data example_world;
         listeners := listeners example_world |} =
      Some (TRUE, w2,
            [Req_bind 1%positive 40%N
               {| name := "zwlr_foreign_toplevel_manager_v1"; version := 3 |} 3%N;
             E_manager_add_listener 41%positive;
             E_register_backend wmb;
             E_wayland_wm_init;
             E_message "Niri integration initialized successfully."])
    ∧ wmb_flags wmb = 3.
Proof.
  destruct (@try_init_without_workspaces example_host example_world
              {| globals := @scanned example_host
                              [(12, "wl_compositor", 6);
                               (40, "zwlr_foreign_toplevel_manager_v1", 5)]%N
                              initial_statics;
                 actors := actors example_world;
                 user_data := user_data example_world;
                 listeners := listeners example_world |}
              [(12, "wl_compositor", 6);
               (40, "zwlr_foreign_toplevel_manager_v1", 5)]%N
              1%positive 41%positive)
    as (w2 & wmb & Hrun & Hws & Hvo & Hgeo & _).
  - reflexivity.
  - apply (bool_decide_unpack _). vm_compute. exact I.
  - apply (bool_decide_unpack _). vm_compute. exact I.
  - reflexivity.
  - reflexivity.
  - reflexivity.
  - reflexivity.
  - exists w2, wmb. split; [exact Hrun|].
    injection Hrun as _ Hwmb. by rewrite <- Hwmb.
Defined.

Lemma match_records_then_init_clamps_witness :
  ∃ w1 r w2 out,
    @gldi_niri_toplevel_match_protocol example_host 40%N
      "zwlr_foreign_toplevel_manager_v1" 5%N example_world = Some (TRUE, w1, [])
    ∧ toplevel_ver (globals w1) = 5%N
    ∧ @gldi_niri_toplevel_try_init example_host 1%positive w1 =
        Some (r, w2,
              Req_bind 1%positive 40%N
                {| name := "zwlr_foreign_toplevel_manager_v1"; version := 3 |} 3%N
              :: out)
    ∧ toplevel_ver (globals w2) = 3%N.
Proof.
  destruct (@match_records_then_init_clamps example_host example_world 40%N
              "zwlr_foreign_toplevel_manager_v1" 5%N 1%positive)
    as (w1 & Hrun & _ & _ & _ & Htop & _).
  destruct Htop as (Hg & r & w2 & out & Hinit & Hver); [reflexivity|].
  exists w1, r, w2, out. repeat split; [exact Hrun | by rewrite Hg | exact Hinit | exact Hver].
Defined.

(** C8, as the specification words it, fails: the version recorded by the
    match step is the advertised one, here 5, and not its minimum with the
    version 3 that the client supports. *)
Lemma match_protocol_records_advertised_version :
  ∃ w1,
    @gldi_niri_toplevel_match_protocol example_host 40%N
      "zwlr_foreign_toplevel_manager_v1" 5%N example_world = Some (TRUE, w1, [])
    ∧ toplevel_ver (globals w1) = 5%N
    ∧ toplevel_ver (globals w1) ≠
        N.min 5 (version (@zwlr_foreign_toplevel_manager_v1_interface example_host)).
Proof.
  eexists. split; [reflexivity|]. split; [reflexivity|]. vm_compute. discriminate.
Qed.

(** ** The file on concrete inputs *)

Example printf_d_digits :
  printf_d 3 = "3" ∧ printf_d 0 = "0" ∧ printf_d (-4) = "-4" ∧ printf_d 2147483647 = "2147483647".
Proof. repeat split. Qed.

Example int_add_wraps : int_add INT_MAX 1 = INT_MIN ∧ int_add 2 1 = 3 ∧ int_add (-1) 1 = 0.
Proof. repeat split. Qed.

(** Entries that are none of the four states are skipped, repeated ones
    count once. *)
Example state_loop_decodes :
  @state_loop example_host [2; 0; 7; 2]%N (FALSE, FALSE, FALSE, FALSE)
  = (TRUE, TRUE, FALSE, FALSE)
  ∧ @state_loop example_host []%N (FALSE, FALSE, FALSE, FALSE)
    = (FALSE, FALSE, FALSE, FALSE)
  ∧ @state_loop example_host [3; 1]%N (FALSE, FALSE, FALSE, FALSE)
    = (FALSE, FALSE, TRUE, TRUE).
Proof. repeat split. Qed.

(** The example of the specification: {activated, maximized}, then
    {activated}, leaves the window not maximized. *)
Example maximized_then_not :
  (@deliver_states example_host (Some 1%positive) 7%positive [[2; 0]; [2]]%N
     example_world
   ≫= λ '(_, w', _), maximized <$> actors w' !! 1%positive) = Some FALSE
  ∧ (@deliver_states example_host (Some 1%positive) 7%positive [[2; 0]]%N
       example_world
     ≫= λ '(_, w', _), maximized <$> actors w' !! 1%positive) = Some TRUE.
Proof. split; vm_compute; reflexivity. Qed.

(** A state event whose listener data is null changes nothing. *)
Example state_event_without_data :
  @_toplevel_state_cb example_host None 7%positive [2; 0]%N example_world
  = Some (tt, example_world, []).
Proof. reflexivity. Qed.

Example ipc_action_without_argument :
  @_niri_ipc_action example_host "focus-workspace-down" None example_world
  = Some (tt, example_world, [E_spawn "niri msg action focus-workspace-down"]).
Proof. reflexivity. Qed.

(** A launch that fails is reported and nothing else happens. *)
Example move_when_launch_fails :
  @_move_to_nth_desktop example_host_without_niri (Some 1%positive) 0 0 0 example_world
  = Some (tt, example_world,
          [Req_activate (Some 7%positive) (Some 3%positive);
           E_spawn "niri msg action move-window-to-workspace 1";
           E_warning "Niri Integration: Failed to execute IPC command 'niri msg action move-window-to-workspace 1': No such file or directory"]).
Proof. reflexivity. Qed.

Example can_minimize_maximize_close_null :
  _can_minimize_maximize_close (Some 1%positive) (Some FALSE) None (Some FALSE) = None
  ∧ _get_supported_actions (Some FALSE) None (Some TRUE) None None
    = Some (Some TRUE, None, Some FALSE, None, None).
Proof. split; reflexivity. Qed.

(** A new toplevel on a 1920 x 1080 screen. *)
Example new_toplevel_on_example_world :
  (@_toplevel_manager_toplevel example_host 9%positive example_world
   ≫= λ '(_, w', _), actors w' !! 3%positive)
  = Some {| iNumDesktop := -1;
            windowGeometry := {| geo_x := 960; geo_y := 540; geo_width := 1; geo_height := 1 |};
            handle := Some 9%positive; parent := None;
            activated := FALSE; maximized := FALSE;
            minimized := FALSE; fullscreen := FALSE |}
  ∧ (@_toplevel_manager_toplevel example_host 9%positive example_world
     ≫= λ '(_, w', _), listeners w' !! 9%positive) = Some 3%positive.
Proof. split; vm_compute; reflexivity. Qed.

(** With both protocols advertised the workspace manager is bound at its
    clamped version and handed to the workspace helper, and the descriptor
    carries all three flags. *)
Example try_init_with_workspaces :
  (@registry_scan example_host
     [(40, "zwlr_foreign_toplevel_manager_v1", 3); (41, "ext_workspace_manager_v1", 2)]%N
     example_world
   ≫= λ '(_, w1, _), @gldi_niri_toplevel_try_init example_host 1%positive w1
   ≫= λ '(r, _, out), Some (r, out))
  = Some (TRUE,
          [Req_bind 1%positive 40%N
             {| name := "zwlr_foreign_toplevel_manager_v1"; version := 3 |} 3%N;
           Req_bind 1%positive 41%N
             {| name := "ext_workspace_manager_v1"; version := 1 |} 1%N;
           E_manager_add_listener 41%positive;
           E_ext_workspaces_register_manager 42%positive;
           E_register_backend (niri_backend 11);
           E_wayland_wm_init;
           E_message "Niri integration initialized successfully."]).
Proof. vm_compute. reflexivity. Qed.

(** ** More properties: the command bridge *)

Section BridgeFacts.

Context `{Host}.

Lemma run_niri_move_window_to_workspace_any
    (w : world) (p : actor_ptr) (a : GldiWaylandWindowActor) (n : Z) :
  actors w !! p = Some a →
  _niri_move_window_to_workspace (Some p) n w =
    Some (tt, w,
          if non_null (handle a) then
            Req_activate (handle a)
              (gdk_wayland_seat_get_wl_seat
                 (gdk_display_get_default_seat gdk_display_get_default))
            :: E_spawn ("niri msg action move-window-to-workspace "
                        +:+ printf_d (int_add n 1))
            :: dispatch_report ("niri msg action move-window-to-workspace "
                                +:+ printf_d (int_add n 1))
          else []).
Proof.
  intros Hp. unfold _niri_move_window_to_workspace.
  rewrite run_bind, (run_load_actor p a) by done.
  destruct (handle a) as [h|]; [|reflexivity].
  rewrite run_bind. unfold zwlr_foreign_toplevel_handle_v1_activate, emit.
  rewrite run_niri_ipc_action. reflexivity.
Qed.

Lemma run_set_thumbnail_area
    (w : world) (p : actor_ptr) (a : GldiWaylandWindowActor)
    (pContainer : option GldiContainer) (x y wd ht : Z) :
  actors w !! p = Some a →
  _set_thumbnail_area (Some p) pContainer x y wd ht w =
    Some (tt, w,
          match resolve_surface pContainer with
          | Some surface => [Req_set_rectangle (handle a) surface x y wd ht]
          | None => []
          end).
Proof.
  intros Hp. unfold _set_thumbnail_area, resolve_surface.
  destruct pContainer as [c|]; [|reflexivity]. cbn.
  destruct (gldi_container_get_gdk_window c) as [window|]; [|reflexivity]. cbn.
  destruct (gdk_wayland_window_get_wl_surface window) as [surface|]; [|reflexivity].
  rewrite run_bind, (run_load_actor p a) by done. reflexivity.
Qed.

(** X1.  Whatever the dock asks for on a live actor, the file answers with
    requests and commands only: the call returns, local memory is what it
    was, at most one protocol request is sent, and a request that is sent
    goes to the handle of that very actor. *)
Theorem bridge_calls_target_own_handle
    (call : bridge_call) (w : world) (p : actor_ptr) (a : GldiWaylandWindowActor) :
  actors w !! p = Some a →
  ∃ out,
    invoke call (Some p) w = Some (tt, w, out)
    ∧ (∀ e t, e ∈ out → request_target e = Some t → t = handle a)
    ∧ (length (List.filter (λ e, non_null (request_target e)) out) ≤ 1)%nat.
Proof.
  intros Hp.
  destruct call as [| | |b|b|n x y|c x y wd ht]; cbn [invoke].
  - unfold _show, zwlr_foreign_toplevel_handle_v1_activate, emit.
    rewrite run_bind, (run_load_actor p a) by done. eexists. split; [reflexivity|].
    split; [|cbn; lia]. intros e t ->%list_elem_of_singleton [= <-]. done.
  - unfold _close, emit.
    rewrite run_bind, (run_load_actor p a) by done. eexists. split; [reflexivity|].
    split; [|cbn; lia]. intros e t ->%list_elem_of_singleton [= <-]. done.
  - unfold _minimize, emit.
    rewrite run_bind, (run_load_actor p a) by done. eexists. split; [reflexivity|].
    split; [|cbn; lia]. intros e t ->%list_elem_of_singleton [= <-]. done.
  - unfold _maximize, emit.
    rewrite run_bind, (run_load_actor p a) by done.
    destruct b; (eexists; split; [reflexivity|]);
      (split; [|cbn; lia]); intros e t ->%list_elem_of_singleton [= <-]; done.
  - unfold _set_fullscreen, emit.
    rewrite run_bind, (run_load_actor p a) by done.
    destruct b; (eexists; split; [reflexivity|]);
      (split; [|cbn; lia]); intros e t ->%list_elem_of_singleton [= <-]; done.
  - unfold _move_to_nth_desktop.
    rewrite (run_niri_move_window_to_workspace_any w p a) by done.
    eexists. split; [reflexivity|].
    destruct (handle a) as [h|]; cbn [non_null].
    + split.
      * intros e t Hin Ht. rewrite !elem_of_cons in Hin.
        destruct Hin as [-> | [-> | Hin]]; [by injection Ht as <- | done |].
        apply dispatch_report_warnings in Hin as [text ->]. done.
      * cbn. unfold dispatch_report. destruct (spawn_outcome _); cbn; lia.
    + split; [|cbn; lia]. intros e t Hin. by apply elem_of_nil in Hin.
  - rewrite (run_set_thumbnail_area w p a) by done.
    eexists. split; [reflexivity|].
    destruct (resolve_surface c).
    + split; [|cbn; lia]. intros e t ->%list_elem_of_singleton [= <-]. done.
    + split; [|cbn; lia]. intros e t Hin. by apply elem_of_nil in Hin.
Qed.

(** X2.  A null actor: the two operations that test for it return without
    doing anything; the five others dereference it. *)
Theorem bridge_calls_on_null_actor (call : bridge_call) (w : world) :
  invoke call None w = if checks_actor call then Some (tt, w, []) else None.
Proof. destruct call; reflexivity. Qed.

(** X3.  Moving a window begins as showing it does: for an actor with a
    handle, the effects of [_move_to_nth_desktop] are those of [_show]
    followed by those of the one IPC action, and neither changes memory. *)
Theorem move_is_show_then_ipc
    (w : world) (p : actor_ptr) (a : GldiWaylandWindowActor) (h : wfthandle)
    (n x y : Z) :
  actors w !! p = Some a → handle a = Some h →
  ∃ shown dispatched,
    _show (Some p) w = Some (tt, w, shown)
    ∧ _niri_ipc_action "move-window-to-workspace" (Some (printf_d (int_add n 1))) w
      = Some (tt, w, dispatched)
    ∧ _move_to_nth_desktop (Some p) n x y w = Some (tt, w, shown ++ dispatched).
Proof.
  intros Hp Hh. eexists _, _. split; [|split].
  - unfold _show, zwlr_foreign_toplevel_handle_v1_activate, emit.
    rewrite run_bind, (run_load_actor p a) by done. reflexivity.
  - apply run_niri_ipc_action.
  - unfold _move_to_nth_desktop.
    rewrite (run_niri_move_window_to_workspace_any w p a) by done.
    rewrite Hh. reflexivity.
Qed.

(** [printf_d] writes a number that reads back as itself. *)
Lemma parse_printf_d (z : Z) : parse_decimal (printf_d z) = Some z.
Proof.
  unfold parse_decimal, printf_d. rewrite NilZero.isi.
  - cbn. by rewrite DecimalZ.of_to.
  - destruct z as [|q|q]; cbn; try discriminate.
    intros [= Hq]. by apply DecimalPos.Unsigned.to_uint_nonnil in Hq.
  - destruct z as [|q|q]; cbn; try discriminate.
    intros [= Hq]. by apply DecimalPos.Unsigned.to_uint_nonnil in Hq.
Qed.

Lemma printf_d_inj (z z' : Z) : printf_d z = printf_d z' → z = z'.
Proof.
  intros Heq. apply (f_equal parse_decimal) in Heq.
  rewrite !parse_printf_d in Heq. by injection Heq.
Qed.

(** X4.  The workspace can be read back from the command: for a 0-based
    index [n] whose successor is an [int], the text spawned is the fixed
    words followed by an argument that parses as the decimal number
    [n + 1]; hence moves of one window to two different workspaces never
    spawn the same command. *)
Theorem move_command_names_the_workspace
    (w : world) (p : actor_ptr) (a : GldiWaylandWindowActor) (h : wfthandle)
    (n m x y x' y' : Z) :
  actors w !! p = Some a → handle a = Some h →
  INT_MIN ≤ n < INT_MAX → INT_MIN ≤ m < INT_MAX →
  (∃ arg rest,
     _move_to_nth_desktop (Some p) n x y w =
       Some (tt, w,
             Req_activate (Some h)
               (gdk_wayland_seat_get_wl_seat
                  (gdk_display_get_default_seat gdk_display_get_default))
             :: E_spawn ("niri msg action move-window-to-workspace " +:+ arg) :: rest)
     ∧ parse_decimal arg = Some (n + 1))
  ∧ (_move_to_nth_desktop (Some p) n x y w = _move_to_nth_desktop (Some p) m x' y' w →
     n = m).
Proof.
  intros Hp Hh Hn Hm. unfold _move_to_nth_desktop.
  rewrite !(run_niri_move_window_to_workspace_any w p a) by done.
  rewrite Hh. cbn [non_null].
  rewrite !int_add_exact by (unfold INT_MIN, INT_MAX in *; lia).
  split.
  - eexists _, _. split; [reflexivity|]. apply parse_printf_d.
  - intros [= Heq _]. apply String.app_inj, printf_d_inj in Heq. lia.
Qed.

End BridgeFacts.

(** ** More properties: the listeners *)

Section ListenerFacts.

Context `{Host}.

(** The loop, entry by entry: a local is on at the end when it was on at
    the start or some entry selects its [case]. *)
Lemma state_loop_existsb (stdata : list N) (a x m f : gboolean) :
  state_loop stdata (a, x, m, f) =
    (a || existsb (λ v, fst (fst (fst (state_switch v (FALSE, FALSE, FALSE, FALSE))))) stdata,
     x || existsb (λ v, snd (fst (fst (state_switch v (FALSE, FALSE, FALSE, FALSE))))) stdata,
     m || existsb (λ v, snd (fst (state_switch v (FALSE, FALSE, FALSE, FALSE)))) stdata,
     f || existsb (λ v, snd (state_switch v (FALSE, FALSE, FALSE, FALSE))) stdata).
Proof.
  revert a x m f. induction stdata as [|v stdata IH]; intros a x m f.
  - cbn. by rewrite !orb_false_r.
  - cbn [state_loop existsb].
    assert (state_switch v (a, x, m, f) =
              (a || fst (fst (fst (state_switch v (FALSE, FALSE, FALSE, FALSE)))),
               x || snd (fst (fst (state_switch v (FALSE, FALSE, FALSE, FALSE)))),
               m || snd (fst (state_switch v (FALSE, FALSE, FALSE, FALSE))),
               f || snd (state_switch v (FALSE, FALSE, FALSE, FALSE)))) as ->.
    { unfold state_switch. repeat case_match; cbn; by rewrite ?orb_true_r, ?orb_false_r. }
    rewrite IH. by rewrite !orb_assoc.
Qed.

Lemma existsb_same_elements {A : Type} (f : A → bool) (l1 l2 : list A) :
  (∀ v, v ∈ l1 ↔ v ∈ l2) → existsb f l1 = existsb f l2.
Proof.
  intros Hsame. apply eq_true_iff_eq. rewrite !existsb_exists.
  split; intros (v & Hin & Hf); exists v; (split; [|done]);
    apply list_elem_of_In, Hsame, list_elem_of_In, Hin.
Qed.

(** X5.  A state event is read as a set: two arrays with the same entries,
    in whatever order and however often repeated, lead to the same calls
    with the same arguments and the same memory; the handle argument plays
    no part. *)
Theorem state_event_is_a_set
    (w : world) (data : option actor_ptr) (h h' : wfthandle) (state state' : list N) :
  (∀ v, v ∈ state ↔ v ∈ state') →
  _toplevel_state_cb data h state w = _toplevel_state_cb data h' state' w.
Proof.
  intros Hsame. unfold _toplevel_state_cb. destruct data as [wactor|]; [|done].
  rewrite !state_loop_existsb.
  by rewrite !(existsb_same_elements _ state state').
Qed.

Lemma run_toplevel_parent_cb
    (w : world) (c : actor_ptr) (a : GldiWaylandWindowActor) (hc : wfthandle)
    (q : option wfthandle) :
  actors w !! c = Some a →
  _toplevel_parent_cb (Some c) hc q w =
    Some (tt, set_actors <[c := set_parent q a]> w, []).
Proof. intros Hc. unfold _toplevel_parent_cb. by apply run_store_actor. Qed.

Lemma run_get_transient_for
    (w : world) (c : actor_ptr) (a : GldiWaylandWindowActor) :
  actors w !! c = Some a →
  _get_transient_for (Some c) w =
    Some (parent a ≫= λ q, user_data w !! q, w, []).
Proof.
  intros Hc. unfold _get_transient_for.
  rewrite run_bind, (run_load_actor c a) by done.
  by destruct (parent a).
Qed.

(** X6.  The parent of a window is the one of its last parent event.  The
    event changes the parent member of that actor and nothing else; the
    lookup that follows changes nothing and returns the actor registered as
    user data of that parent handle, or null when the event carried no
    parent or the handle has no user data. *)
Theorem parent_event_then_transient_for
    (w : world) (c : actor_ptr) (a : GldiWaylandWindowActor) (hc : wfthandle)
    (q : option wfthandle) :
  actors w !! c = Some a →
  ∃ w1,
    _toplevel_parent_cb (Some c) hc q w = Some (tt, w1, [])
    ∧ actors w1 = <[c := set_parent q a]> (actors w)
    ∧ globals w1 = globals w ∧ user_data w1 = user_data w ∧ listeners w1 = listeners w
    ∧ _get_transient_for (Some c) w1 =
        Some (match q with
              | Some hp => user_data w !! hp
              | None => None
              end, w1, []).
Proof.
  intros Hc. eexists. split; [by apply run_toplevel_parent_cb|].
  do 4 (split; [reflexivity|]).
  rewrite (run_get_transient_for _ c _ (lookup_set_actors_insert _ _ _)).
  by destruct q.
Qed.

(** X7.  From announcement to lookup: when a handle is announced, then
    named as parent of an existing window, the transient-for lookup of that
    window gives the actor made at the announcement, which is another actor
    than the window itself. *)
Theorem announced_parent_is_found
    (w : world) (c : actor_ptr) (a : GldiWaylandWindowActor) (hc hp : wfthandle) :
  actors w !! c = Some a →
  ∃ w1 w2 pa out,
    _toplevel_manager_toplevel hp w = Some (tt, w1, out)
    ∧ _toplevel_parent_cb (Some c) hc (Some hp) w1 = Some (tt, w2, [])
    ∧ _get_transient_for (Some c) w2 = Some (Some pa, w2, [])
    ∧ pa ≠ c
    ∧ actors w !! pa = None
    ∧ is_Some (actors w2 !! pa)
    ∧ listeners w2 !! hp = Some pa.
Proof.
  intros Hc.
  set (pa := fresh (dom (actors w))).
  assert (pa ≠ c) as Hne.
  { intros Heq. pose proof (fresh_actor_unused w) as Hf. fold pa in Hf.
    rewrite Heq in Hf. congruence. }
  eexists _, _, pa, _.
  split.
  { rewrite run_toplevel_manager_toplevel, run_bind, run_toplevel_before_listener.
    reflexivity. }
  assert (∀ w', actors w' = <[pa := seeded_actor hp]> (actors w) →
                actors w' !! c = Some a) as Hc1.
  { intros w' ->. by rewrite lookup_insert_ne. }
  split; [apply (run_toplevel_parent_cb _ c a); by apply Hc1|].
  split.
  { rewrite (run_get_transient_for _ c _ (lookup_set_actors_insert _ _ _)).
    cbn. by rewrite lookup_insert_eq. }
  split; [done|]. split; [apply fresh_actor_unused|].
  split; [|cbn; apply lookup_insert_eq].
  cbn. rewrite lookup_insert_ne, lookup_insert_eq by done. by eexists.
Qed.

(** X8.  A new toplevel disturbs nothing that exists: every actor there
    was is still there, unchanged, at its address; user data and listener
    of every other handle are as before; the statics are untouched.  The
    handle announced gets the new actor both as user data and as listener
    data. *)
Theorem new_toplevel_preserves_the_rest (w : world) (handle : wfthandle) :
  ∃ wactor w1,
    _toplevel_manager_toplevel handle w = Some (tt, w1, [E_wm_new_toplevel handle])
    ∧ (∀ p a, actors w !! p = Some a → actors w1 !! p = Some a)
    ∧ (∀ h, h ≠ handle →
         user_data w1 !! h = user_data w !! h ∧ listeners w1 !! h = listeners w !! h)
    ∧ user_data w1 !! handle = Some wactor
    ∧ listeners w1 !! handle = Some wactor
    ∧ globals w1 = globals w.
Proof.
  eexists _, _. split.
  { rewrite run_toplevel_manager_toplevel, run_bind, run_toplevel_before_listener.
    reflexivity. }
  cbn. split.
  { intros p a Hp. rewrite lookup_insert_ne; [done|].
    intros <-. pose proof (fresh_actor_unused w). congruence. }
  split.
  { intros h Hne. by rewrite !lookup_insert_ne. }
  by rewrite !lookup_insert_eq.
Qed.

End ListenerFacts.

(** ** More properties: the registry scan and the initialization *)

Section InitFacts.

Context `{Host}.

Lemma scanned_app (ads rest : list (N * string * N)) (g : statics) :
  scanned (ads ++ rest) g = scanned rest (scanned ads g).
Proof. unfold scanned. apply foldl_app. Qed.

Lemma recorded_irrelevant (ad : N * string * N) (g : statics) :
  relevant ad = false → recorded ad.1.1 ad.1.2 ad.2 g = g.
Proof.
  unfold relevant, recorded. intros [-> ->]%orb_false_elim. reflexivity.
Qed.

(** X9.  Advertisements of other interfaces count for nothing: a scan
    leaves memory as the scan of its toplevel and workspace advertisements
    alone does, and a scan without any of those leaves memory as it was.
    No scan has an effect on the outside. *)
Theorem scan_ignores_other_interfaces (ads : list (N * string * N)) (w : world) :
  registry_scan ads w = registry_scan (List.filter relevant ads) w
  ∧ (List.filter relevant ads = [] → registry_scan ads w = Some (tt, w, []))
  ∧ ∃ w1, registry_scan ads w = Some (tt, w1, []).
Proof.
  assert (∀ g, scanned ads g = scanned (List.filter relevant ads) g) as Hsame.
  { induction ads as [|ad ads IH]; intros g; [done|].
    cbn [List.filter]. destruct (relevant ad) eqn:Hrel.
    - rewrite !scanned_cons. apply IH.
    - rewrite scanned_cons, recorded_irrelevant by done. apply IH. }
  rewrite !run_registry_scan. split; [by rewrite Hsame|]. split; [|by eexists].
  intros Hnone. rewrite Hsame, Hnone. cbn. by rewrite set_globals_same.
Qed.

Lemma scanned_toplevel_kept (rest : list (N * string * N)) (g : statics) :
  ¬ advertised zwlr_foreign_toplevel_manager_v1_interface rest →
  toplevel_found (scanned rest g) = toplevel_found g
  ∧ toplevel_id (scanned rest g) = toplevel_id g
  ∧ toplevel_ver (scanned rest g) = toplevel_ver g.
Proof.
  unfold advertised. revert g.
  induction rest as [|[[id interface] ver] rest IH]; intros g Hno; [done|].
  rewrite Exists_cons in Hno. cbn [fst snd] in Hno.
  rewrite scanned_cons. cbn [fst snd].
  destruct (IH (recorded id interface ver g)) as (-> & -> & ->);
    [tauto|].
  unfold recorded.
  destruct (String.eqb_spec interface (name zwlr_foreign_toplevel_manager_v1_interface));
    [tauto|].
  by destruct (String.eqb interface (name ext_workspace_manager_v1_interface)).
Qed.

Lemma scanned_workspace_kept (rest : list (N * string * N)) (g : statics) :
  ¬ advertised ext_workspace_manager_v1_interface rest →
  workspace_found (scanned rest g) = workspace_found g
  ∧ workspace_id (scanned rest g) = workspace_id g
  ∧ workspace_ver (scanned rest g) = workspace_ver g.
Proof.
  unfold advertised. revert g.
  induction rest as [|[[id interface] ver] rest IH]; intros g Hno; [done|].
  rewrite Exists_cons in Hno. cbn [fst snd] in Hno.
  rewrite scanned_cons. cbn [fst snd].
  destruct (IH (recorded id interface ver g)) as (-> & -> & ->);
    [tauto|].
  unfold recorded.
  destruct (String.eqb_spec interface (name zwlr_foreign_toplevel_manager_v1_interface));
    [done|].
  destruct (String.eqb_spec interface (name ext_workspace_manager_v1_interface));
    [tauto|done].
Qed.

(** X10.  The last advertisement of the toplevel protocol is the one that
    stays: whatever came before it, and whatever else comes after it, the
    scan ends with the toplevel record found and holding the id and the
    version of that advertisement. *)
Theorem scan_keeps_last_toplevel
    (w : world) (ads rest : list (N * string * N)) (id ver : N) :
  ¬ advertised zwlr_foreign_toplevel_manager_v1_interface rest →
  ∃ w1,
    registry_scan
      (ads ++ (id, name zwlr_foreign_toplevel_manager_v1_interface, ver) :: rest) w
      = Some (tt, w1, [])
    ∧ toplevel_found (globals w1) = TRUE
    ∧ toplevel_id (globals w1) = id
    ∧ toplevel_ver (globals w1) = ver
    ∧ actors w1 = actors w ∧ user_data w1 = user_data w ∧ listeners w1 = listeners w.
Proof.
  intros Hno. eexists. split; [apply run_registry_scan|].
  cbn [globals set_globals actors user_data listeners].
  rewrite scanned_app, scanned_cons. cbn [fst snd].
  destruct (scanned_toplevel_kept rest
              (recorded id (name zwlr_foreign_toplevel_manager_v1_interface) ver
                 (scanned ads (globals w))) Hno) as (-> & -> & ->).
  unfold recorded. rewrite String.eqb_refl. done.
Qed.

(** X11.  The same for the workspace protocol, whose name is compared
    second: when the two interface names differ, the last workspace
    advertisement stays, with its id and version, whatever toplevel
    advertisements surround it. *)
Theorem scan_keeps_last_workspace
    (w : world) (ads rest : list (N * string * N)) (id ver : N) :
  name ext_workspace_manager_v1_interface
    ≠ name zwlr_foreign_toplevel_manager_v1_interface →
  ¬ advertised ext_workspace_manager_v1_interface rest →
  ∃ w1,
    registry_scan
      (ads ++ (id, name ext_workspace_manager_v1_interface, ver) :: rest) w
      = Some (tt, w1, [])
    ∧ workspace_found (globals w1) = TRUE
    ∧ workspace_id (globals w1) = id
    ∧ workspace_ver (globals w1) = ver
    ∧ actors w1 = actors w ∧ user_data w1 = user_data w ∧ listeners w1 = listeners w.
Proof.
  intros Hne Hno. eexists. split; [apply run_registry_scan|].
  cbn [globals set_globals actors user_data listeners].
  rewrite scanned_app, scanned_cons. cbn [fst snd].
  destruct (scanned_workspace_kept rest
              (recorded id (name ext_workspace_manager_v1_interface) ver
                 (scanned ads (globals w))) Hno) as (-> & -> & ->).
  unfold recorded.
  destruct (String.eqb_spec (name ext_workspace_manager_v1_interface)
              (name zwlr_foreign_toplevel_manager_v1_interface)); [done|].
  rewrite String.eqb_refl. done.
Qed.

(** X12.  The initialization always returns.  It returns [TRUE] exactly
    when the toplevel protocol was found and its bind, at the clamped
    version, gave a proxy.  When it returns [TRUE] it has subscribed to the
    manager, registered the backend and started the generic helper, once
    each; when it returns [FALSE] it has done none of these, and whatever
    it did was a bind. *)
Theorem try_init_outcome (registry : wl_registry) (w : world) :
  ∃ r w2 out,
    gldi_niri_toplevel_try_init registry w = Some (r, w2, out)
    ∧ r = toplevel_found (globals w)
          && non_null
               (bind_outcome registry (toplevel_id (globals w))
                  zwlr_foreign_toplevel_manager_v1_interface
                  (N.min (toplevel_ver (globals w))
                     (version zwlr_foreign_toplevel_manager_v1_interface)))
    ∧ length (List.filter is_manager_add_listener out) = (if r then 1 else 0)%nat
    ∧ length (List.filter is_register_backend out) = (if r then 1 else 0)%nat
    ∧ length (List.filter is_wayland_wm_init out) = (if r then 1 else 0)%nat
    ∧ (r = FALSE → Forall (λ e, is_bind e = true) out).
Proof.
  destruct (toplevel_found (globals w)) eqn:Hf.
  - rewrite run_try_init_found by done. cbv zeta. rewrite <- MIN_min.
    eexists _, _, _. split; [reflexivity|].
    unfold registration, bound_workspace, bound_toplevel, bind_requests.
    destruct (workspace_found (globals w)) eqn:Hw; cbn; rewrite ?Hw; cbn;
      destruct (bind_outcome registry (toplevel_id (globals w)) _ _); cbn;
      try destruct (bind_outcome registry (workspace_id (globals w)) _ _); cbn;
      try destruct (s_pworkspace_manager (globals w)); cbn;
      repeat split; try done; intros _; repeat constructor.
  - rewrite run_try_init_not_found by done.
    eexists _, _, _. split; [reflexivity|]. cbn. repeat split. by intros _.
Qed.

(** X13.  A bind never asks for more than the client supports.  Every bind
    request of the initialization goes to the registry it was given, for
    the id recorded for one of the two protocols, at the smaller of the
    recorded version and the version of the interface description; the
    workspace manager is bound only if the workspace protocol was found. *)
Theorem try_init_binds_are_clamped
    (registry : wl_registry) (w w2 : world) (r : gboolean) (out : list effect)
    (reg : wl_registry) (id : N) (iface : wl_interface) (v : N) :
  gldi_niri_toplevel_try_init registry w = Some (r, w2, out) →
  Req_bind reg id iface v ∈ out →
  reg = registry
  ∧ (v ≤ version iface)%N
  ∧ ((iface = zwlr_foreign_toplevel_manager_v1_interface
      ∧ toplevel_found (globals w) = TRUE
      ∧ id = toplevel_id (globals w)
      ∧ v = N.min (toplevel_ver (globals w)) (version iface))
     ∨ (iface = ext_workspace_manager_v1_interface
        ∧ toplevel_found (globals w) = TRUE
        ∧ workspace_found (globals w) = TRUE
        ∧ id = workspace_id (globals w)
        ∧ v = N.min (workspace_ver (globals w)) (version iface))).
Proof.
  destruct (toplevel_found (globals w)) eqn:Hf.
  - rewrite run_try_init_found by done. cbv zeta. intros [= _ _ <-].
    rewrite !MIN_min, elem_of_cons, elem_of_app. intros [Heq|[Hin|Hin]].
    + injection Heq as -> -> -> ->.
      split; [done|]. split; [lia|]. left. done.
    + destruct (workspace_found (globals w)) eqn:Hw; [|by apply elem_of_nil in Hin].
      apply list_elem_of_singleton in Hin as [= -> -> -> ->].
      split; [done|]. split; [lia|]. right. done.
    + exfalso. unfold registration in Hin.
      destruct (s_ptoplevel_manager _); cbn in Hin; [|by apply elem_of_nil in Hin].
      destruct (s_pworkspace_manager _); cbn in Hin;
        rewrite !elem_of_cons, elem_of_nil in Hin;
        repeat (destruct Hin as [Hin|Hin]; [discriminate|]); done.
  - rewrite run_try_init_not_found by done. intros [= _ _ <-] Hin.
    by apply elem_of_nil in Hin.
Qed.

(** X14.  The descriptor says workspaces exactly when the workspace helper
    got a manager.  When the two viewport flags share no bit with
    [GLDI_WM_HAVE_WORKSPACES], which is not zero, the descriptor that a
    call registers has that flag if and only if the same call handed a
    manager to the workspace helper, if and only if the static workspace
    manager is not null afterwards. *)
Theorem workspace_flag_matches_forwarding
    (registry : wl_registry) (w w2 : world) (r : gboolean) (out : list effect)
    (wmb : GldiWindowManagerBackend) :
  Z.land GLDI_WM_NO_VIEWPORT_OVERLAP GLDI_WM_HAVE_WORKSPACES = 0 →
  Z.land GLDI_WM_GEOM_REL_TO_VIEWPORT GLDI_WM_HAVE_WORKSPACES = 0 →
  GLDI_WM_HAVE_WORKSPACES ≠ 0 →
  gldi_niri_toplevel_try_init registry w = Some (r, w2, out) →
  E_register_backend wmb ∈ out →
  (Z.land (wmb_flags wmb) GLDI_WM_HAVE_WORKSPACES = GLDI_WM_HAVE_WORKSPACES
   ↔ ∃ manager, E_ext_workspaces_register_manager manager ∈ out)
  ∧ (Z.land (wmb_flags wmb) GLDI_WM_HAVE_WORKSPACES = GLDI_WM_HAVE_WORKSPACES
     ↔ is_Some (s_pworkspace_manager (globals w2))).
Proof.
  intros Hd1 Hd2 Hnz.
  destruct (toplevel_found (globals w)) eqn:Hf.
  - rewrite run_try_init_found by done. cbv zeta.
    set (g := bound_workspace registry (bound_toplevel registry (globals w))).
    intros Hrun.
    assert (bind_requests registry (globals w) ++ (registration g).2 = out) as <-
      by congruence.
    assert (set_globals (λ _, g) w = w2) as <- by congruence.
    clear Hrun. cbn [globals set_globals].
    remember (bind_requests registry (globals w)) as reqs eqn:Hreqs.
    assert (∀ e, e ∈ reqs → is_bind e = true) as Hb.
    { intros e. subst reqs. unfold bind_requests. rewrite elem_of_cons.
      intros [->|Hin]; [done|]. destruct (workspace_found _).
      - by apply list_elem_of_singleton in Hin as ->.
      - by apply elem_of_nil in Hin. }
    clear Hreqs.
    rewrite elem_of_app. intros [Hin|Hin]; [by apply Hb in Hin|].
    unfold registration in *.
    destruct (s_ptoplevel_manager g); cbn [fst snd] in *; [|by apply elem_of_nil in Hin].
    destruct (s_pworkspace_manager g) as [wm|]; cbn [non_null app] in *;
      rewrite !elem_of_cons, elem_of_nil in Hin;
      repeat (destruct Hin as [Hin|Hin]; [try discriminate|]); try done;
      injection Hin as ->; cbn [wmb_flags niri_backend].
    + split; (split; [intros _|intros _; apply land_lor_same_r]).
      * exists wm. apply elem_of_app. right. rewrite !elem_of_cons. auto.
      * by eexists.
    + rewrite Z.land_lor_distr_l, Hd1, Hd2. cbn [Z.lor].
      split; (split; [intros Hz; symmetry in Hz; done|]).
      * intros [manager Hin]. apply elem_of_app in Hin as [Hin|Hin];
          [by apply Hb in Hin|].
        rewrite !elem_of_cons, elem_of_nil in Hin.
        repeat (destruct Hin as [Hin|Hin]; [discriminate|]). done.
      * by intros [? ?].
  - rewrite run_try_init_not_found by done. intros [= _ _ <-] Hin.
    by apply elem_of_nil in Hin.
Qed.

(** X15.  What the initialization leaves alone: the window actors, the
    user data and listeners of the handles, and of the statics the two
    found flags and the two ids.  A recorded version is only ever
    lowered. *)
Theorem try_init_keeps_records (registry : wl_registry) (w : world) :
  ∃ r w2 out,
    gldi_niri_toplevel_try_init registry w = Some (r, w2, out)
    ∧ actors w2 = actors w ∧ user_data w2 = user_data w ∧ listeners w2 = listeners w
    ∧ toplevel_found (globals w2) = toplevel_found (globals w)
    ∧ workspace_found (globals w2) = workspace_found (globals w)
    ∧ toplevel_id (globals w2) = toplevel_id (globals w)
    ∧ workspace_id (globals w2) = workspace_id (globals w)
    ∧ (toplevel_ver (globals w2) ≤ toplevel_ver (globals w))%N
    ∧ (workspace_ver (globals w2) ≤ workspace_ver (globals w))%N.
Proof.
  destruct (toplevel_found (globals w)) eqn:Hf.
  - rewrite run_try_init_found by done. cbv zeta.
    eexists _, _, _. split; [reflexivity|].
    cbn [globals set_globals actors user_data listeners].
    unfold bound_workspace, bound_toplevel. rewrite !MIN_min.
    destruct (workspace_found (globals w)) eqn:Hw; cbn; rewrite ?Hw, ?Hf; cbn;
      repeat split; try done; lia.
  - rewrite run_try_init_not_found by done.
    eexists _, _, _. split; [reflexivity|]. repeat split; try done; lia.
Qed.

(** X16.  The order of a full start.  With both protocols found and both
    binds answered, the initialization returns [TRUE] after, in this
    order: the bind of the toplevel manager, the bind of the workspace
    manager, the subscription to the toplevel manager, the hand-over of
    the workspace manager, the registration of a descriptor with all three
    flags, the start of the generic helper, and one message.  The two
    proxies are then the two static managers. *)
Theorem try_init_full_start
    (registry : wl_registry) (w : world) (toplevel_manager workspace_manager : wl_proxy) :
  toplevel_found (globals w) = TRUE →
  workspace_found (globals w) = TRUE →
  bind_outcome registry (toplevel_id (globals w))
    zwlr_foreign_toplevel_manager_v1_interface
    (N.min (toplevel_ver (globals w))
       (version zwlr_foreign_toplevel_manager_v1_interface)) = Some toplevel_manager →
  bind_outcome registry (workspace_id (globals w))
    ext_workspace_manager_v1_interface
    (N.min (workspace_ver (globals w))
       (version ext_workspace_manager_v1_interface)) = Some workspace_manager →
  ∃ w2,
    gldi_niri_toplevel_try_init registry w =
      Some (TRUE, w2,
            [Req_bind registry (toplevel_id (globals w))
               zwlr_foreign_toplevel_manager_v1_interface
               (N.min (toplevel_ver (globals w))
                  (version zwlr_foreign_toplevel_manager_v1_interface));
             Req_bind registry (workspace_id (globals w))
               ext_workspace_manager_v1_interface
               (N.min (workspace_ver (globals w))
                  (version ext_workspace_manager_v1_interface));
             E_manager_add_listener toplevel_manager;
             E_ext_workspaces_register_manager workspace_manager;
             E_register_backend
               (niri_backend
                  (Z.lor (Z.lor GLDI_WM_NO_VIEWPORT_OVERLAP GLDI_WM_GEOM_REL_TO_VIEWPORT)
                     GLDI_WM_HAVE_WORKSPACES));
             E_wayland_wm_init;
             E_message "Niri integration initialized successfully."])
    ∧ s_ptoplevel_manager (globals w2) = Some toplevel_manager
    ∧ s_pworkspace_manager (globals w2) = Some workspace_manager.
Proof.
  intros Hf Hw Htop Hws. rewrite <- !MIN_min in *.
  rewrite run_try_init_found by done. cbv zeta.
  unfold bind_requests, registration, bound_workspace, bound_toplevel.
  cbn. rewrite Hw. cbn. rewrite Htop, Hws. cbn.
  eexists. split; [reflexivity|]. done.
Qed.

(** X17.  A workspace manager that cannot be bound only degrades the
    start.  With both protocols found, the toplevel bind answered and the
    workspace bind answered by null, the initialization still returns
    [TRUE]; it has sent
    both binds, handed nothing to the workspace helper, and registered the
    descriptor with the two viewport flags only. *)
Theorem try_init_without_workspace_proxy
    (registry : wl_registry) (w : world) (toplevel_manager : wl_proxy) :
  toplevel_found (globals w) = TRUE →
  workspace_found (globals w) = TRUE →
  bind_outcome registry (toplevel_id (globals w))
    zwlr_foreign_toplevel_manager_v1_interface
    (N.min (toplevel_ver (globals w))
       (version zwlr_foreign_toplevel_manager_v1_interface)) = Some toplevel_manager →
  bind_outcome registry (workspace_id (globals w))
    ext_workspace_manager_v1_interface
    (N.min (workspace_ver (globals w))
       (version ext_workspace_manager_v1_interface)) = None →
  ∃ w2,
    gldi_niri_toplevel_try_init registry w =
      Some (TRUE, w2,
            [Req_bind registry (toplevel_id (globals w))
               zwlr_foreign_toplevel_manager_v1_interface
               (N.min (toplevel_ver (globals w))
                  (version zwlr_foreign_toplevel_manager_v1_interface));
             Req_bind registry (workspace_id (globals w))
               ext_workspace_manager_v1_interface
               (N.min (workspace_ver (globals w))
                  (version ext_workspace_manager_v1_interface));
             E_manager_add_listener toplevel_manager;
             E_register_backend
               (niri_backend
                  (Z.lor GLDI_WM_NO_VIEWPORT_OVERLAP GLDI_WM_GEOM_REL_TO_VIEWPORT));
             E_wayland_wm_init;
             E_message "Niri integration initialized successfully."])
    ∧ s_pworkspace_manager (globals w2) = None.
Proof.
  intros Hf Hw Htop Hws. rewrite <- !MIN_min in *.
  rewrite run_try_init_found by done. cbv zeta.
  unfold bind_requests, registration, bound_workspace, bound_toplevel.
  cbn. rewrite Hw. cbn. rewrite Htop, Hws. cbn.
  eexists. split; [reflexivity|]. done.
Qed.

End InitFacts.

(** ** The further properties at work *)

Lemma bridge_calls_target_own_handle_witness :
  ∃ out,
    @invoke example_host (Call_set_fullscreen TRUE) (Some 1%positive) example_world
      = Some (tt, example_world, out)
    ∧ (∀ e t, e ∈ out → request_target e = Some t → t = Some 7%positive)
    ∧ (length (List.filter (λ e, non_null (request_target e)) out) ≤ 1)%nat.
Proof.
  apply (@bridge_calls_target_own_handle example_host (Call_set_fullscreen TRUE)
           example_world 1%positive example_actor).
  reflexivity.
Defined.

Lemma move_is_show_then_ipc_witness :
  ∃ shown dispatched,
    @_show example_host (Some 1%positive) example_world
      = Some (tt, example_world, shown)
    ∧ @_niri_ipc_action example_host "move-window-to-workspace"
        (Some (printf_d (int_add 4 1))) example_world
      = Some (tt, example_world, dispatched)
    ∧ @_move_to_nth_desktop example_host (Some 1%positive) 4 0 0 example_world
      = Some (tt, example_world, shown ++ dispatched).
Proof.
  apply (@move_is_show_then_ipc example_host example_world 1%positive example_actor
           7%positive 4 0 0); reflexivity.
Defined.

Lemma move_command_names_the_workspace_witness :
  (∃ arg rest,
     @_move_to_nth_desktop example_host (Some 1%positive) 4 0 0 example_world =
       Some (tt, example_world,
             Req_activate (Some 7%positive) (Some 3%positive)
             :: E_spawn ("niri msg action move-window-to-workspace " +:+ arg) :: rest)
     ∧ parse_decimal arg = Some 5)
  ∧ (@_move_to_nth_desktop example_host (Some 1%positive) 4 0 0 example_world
     = @_move_to_nth_desktop example_host (Some 1%positive) 6 9 9 example_world →
     4 = 6).
Proof.
  apply (@move_command_names_the_workspace example_host example_world 1%positive
           example_actor 7%positive 4 6 0 0 9 9);
    [reflexivity | reflexivity | vm_compute; split; congruence
    | vm_compute; split; congruence].
Defined.

Lemma state_event_is_a_set_witness :
  @_toplevel_state_cb example_host (Some 1%positive) 7%positive [2; 0; 2]%N example_world
  = @_toplevel_state_cb example_host (Some 1%positive) 8%positive [0; 2]%N example_world.
Proof.
  apply (@state_event_is_a_set example_host).
  intros v. rewrite !elem_of_cons, !elem_of_nil. tauto.
Defined.

Lemma parent_event_then_transient_for_witness :
  ∃ w1,
    _toplevel_parent_cb (Some 2%positive) 9%positive (Some 7%positive)
      example_world = Some (tt, w1, [])
    ∧ actors w1 = <[2%positive := set_parent (Some 7%positive) example_orphan]>
                    (actors example_world)
    ∧ globals w1 = globals example_world
    ∧ user_data w1 = user_data example_world
    ∧ listeners w1 = listeners example_world
    ∧ _get_transient_for (Some 2%positive) w1
      = Some (user_data example_world !! 7%positive, w1, []).
Proof.
  apply (parent_event_then_transient_for example_world 2%positive
           example_orphan 9%positive (Some 7%positive)).
  reflexivity.
Defined.

Lemma announced_parent_is_found_witness :
  ∃ w1 w2 pa out,
    @_toplevel_manager_toplevel example_host 9%positive example_world
      = Some (tt, w1, out)
    ∧ _toplevel_parent_cb (Some 1%positive) 7%positive (Some 9%positive) w1
      = Some (tt, w2, [])
    ∧ _get_transient_for (Some 1%positive) w2 = Some (Some pa, w2, [])
    ∧ pa ≠ 1%positive
    ∧ actors example_world !! pa = None
    ∧ is_Some (actors w2 !! pa)
    ∧ listeners w2 !! 9%positive = Some pa.
Proof.
  apply (@announced_parent_is_found example_host example_world 1%positive
           example_actor 7%positive 9%positive).
  reflexivity.
Defined.

Lemma scan_ignores_other_interfaces_witness :
  @registry_scan example_host
    [(1, "wl_compositor", 6); (2, "wl_shm", 2); (3, "xdg_wm_base", 7)]%N example_world
  = Some (tt, example_world, []).
Proof.
  apply (proj1 (proj2 (@scan_ignores_other_interfaces example_host
                         [(1, "wl_compositor", 6); (2, "wl_shm", 2);
                          (3, "xdg_wm_base", 7)]%N example_world))).
  reflexivity.
Defined.

Lemma scan_keeps_last_toplevel_witness :
  ∃ w1,
    @registry_scan example_host
      ([(30, "zwlr_foreign_toplevel_manager_v1", 1)]%N
       ++ (40, "zwlr_foreign_toplevel_manager_v1", 3)%N
          :: [(41, "ext_workspace_manager_v1", 1)]%N) example_world
      = Some (tt, w1, [])
    ∧ toplevel_found (globals w1) = TRUE
    ∧ toplevel_id (globals w1) = 40%N
    ∧ toplevel_ver (globals w1) = 3%N
    ∧ actors w1 = actors example_world
    ∧ user_data w1 = user_data example_world
    ∧ listeners w1 = listeners example_world.
Proof.
  apply (@scan_keeps_last_toplevel example_host example_world
           [(30, "zwlr_foreign_toplevel_manager_v1", 1)]%N
           [(41, "ext_workspace_manager_v1", 1)]%N 40%N 3%N).
  apply (bool_decide_unpack _). vm_compute. exact I.
Defined.

Lemma scan_keeps_last_workspace_witness :
  ∃ w1,
    @registry_scan example_host
      ([(41, "ext_workspace_manager_v1", 1)]%N
       ++ (51, "ext_workspace_manager_v1", 2)%N
          :: [(40, "zwlr_foreign_toplevel_manager_v1", 3)]%N) example_world
      = Some (tt, w1, [])
    ∧ workspace_found (globals w1) = TRUE
    ∧ workspace_id (globals w1) = 51%N
    ∧ workspace_ver (globals w1) = 2%N
    ∧ actors w1 = actors example_world
    ∧ user_data w1 = user_data example_world
    ∧ listeners w1 = listeners example_world.
Proof.
  apply (@scan_keeps_last_workspace example_host example_world
           [(41, "ext_workspace_manager_v1", 1)]%N
           [(40, "zwlr_foreign_toplevel_manager_v1", 3)]%N 51%N 2%N).
  - discriminate.
  - apply (bool_decide_unpack _). vm_compute. exact I.
Defined.

Lemma try_init_outcome_witness :
  ∃ w2 out,
    @gldi_niri_toplevel_try_init example_host_without_proxies 1%positive
      example_world_scanned = Some (FALSE, w2, out)
    ∧ Forall (λ e, is_bind e = true) out.
Proof.
  destruct (@try_init_outcome example_host_without_proxies 1%positive
              example_world_scanned)
    as (r & w2 & out & Hrun & Hr & _ & _ & _ & Hbinds).
  vm_compute in Hr. subst r.
  exists w2, out. split; [exact Hrun|]. by apply Hbinds.
Defined.

Lemma try_init_binds_are_clamped_witness :
  1%positive = 1%positive
  ∧ (1 ≤ version (@ext_workspace_manager_v1_interface example_host))%N
  ∧ ((@ext_workspace_manager_v1_interface example_host
        = @zwlr_foreign_toplevel_manager_v1_interface example_host
      ∧ toplevel_found (globals example_world_scanned) = TRUE
      ∧ 41%N = toplevel_id (globals example_world_scanned)
      ∧ 1%N = N.min (toplevel_ver (globals example_world_scanned))
                (version (@ext_workspace_manager_v1_interface example_host)))
     ∨ (@ext_workspace_manager_v1_interface example_host
          = @ext_workspace_manager_v1_interface example_host
        ∧ toplevel_found (globals example_world_scanned) = TRUE
        ∧ workspace_found (globals example_world_scanned) = TRUE
        ∧ 41%N = workspace_id (globals example_world_scanned)
        ∧ 1%N = N.min (workspace_ver (globals example_world_scanned))
                  (version (@ext_workspace_manager_v1_interface example_host)))).
Proof.
  destruct (@gldi_niri_toplevel_try_init example_host 1%positive example_world_scanned)
    as [[[r w2] out]|] eqn:Hrun; [|discriminate Hrun].
  apply (@try_init_binds_are_clamped example_host 1%positive example_world_scanned
           w2 r out 1%positive 41%N
           (@ext_workspace_manager_v1_interface example_host) 1%N Hrun).
  vm_compute in Hrun. injection Hrun as _ _ <-.
  apply elem_of_cons. right. apply elem_of_cons. by left.
Defined.

Lemma workspace_flag_matches_forwarding_witness :
  ∃ r w2 out,
    @gldi_niri_toplevel_try_init example_host 1%positive example_world_scanned
      = Some (r, w2, out)
    ∧ (Z.land (wmb_flags (niri_backend 11)) 8 = 8
       ↔ ∃ manager, E_ext_workspaces_register_manager manager ∈ out).
Proof.
  destruct (@gldi_niri_toplevel_try_init example_host 1%positive example_world_scanned)
    as [[[r w2] out]|] eqn:Hrun; [|discriminate Hrun].
  exists r, w2, out. split; [reflexivity|].
  apply (@workspace_flag_matches_forwarding example_host 1%positive
           example_world_scanned w2 r out (niri_backend 11));
    [reflexivity | reflexivity | discriminate | exact Hrun |].
  vm_compute in Hrun. injection Hrun as _ _ <-.
  rewrite !elem_of_cons. auto 10.
Defined.

Lemma try_init_full_start_witness :
  ∃ w2,
    @gldi_niri_toplevel_try_init example_host 1%positive example_world_scanned =
      Some (TRUE, w2,
            [Req_bind 1%positive 40%N
               {| name := "zwlr_foreign_toplevel_manager_v1"; version := 3 |} 3%N;
             Req_bind 1%positive 41%N
               {| name := "ext_workspace_manager_v1"; version := 1 |} 1%N;
             E_manager_add_listener 41%positive;
             E_ext_workspaces_register_manager 42%positive;
             E_register_backend (niri_backend 11);
             E_wayland_wm_init;
             E_message "Niri integration initialized successfully."])
    ∧ s_ptoplevel_manager (globals w2) = Some 41%positive
    ∧ s_pworkspace_manager (globals w2) = Some 42%positive.
Proof.
  apply (@try_init_full_start example_host 1%positive example_world_scanned
           41%positive 42%positive); reflexivity.
Defined.

Lemma try_init_without_workspace_proxy_witness :
  ∃ w2,
    @gldi_niri_toplevel_try_init example_host_without_workspace_proxy 1%positive
      example_world_scanned =
      Some (TRUE, w2,
            [Req_bind 1%positive 40%N
               {| name := "zwlr_foreign_toplevel_manager_v1"; version := 3 |} 3%N;
             Req_bind 1%positive 41%N
               {| name := "ext_workspace_manager_v1"; version := 1 |} 1%N;
             E_manager_add_listener 41%positive;
             E_register_backend (niri_backend 3);
             E_wayland_wm_init;
             E_message "Niri integration initialized successfully."])
    ∧ s_pworkspace_manager (globals w2) = None.
Proof.
  apply (@try_init_without_workspace_proxy example_host_without_workspace_proxy
           1%positive example_world_scanned 41%positive); reflexivity.
Defined.
